(** * TicketResolutionSystemRAG: the semantic retrieval engine

    A shallow embedding of [ticket_matching_system.py] (class
    [TicketMatchingSystem]) and the properties of its text normaliser,
    its build / load lifecycle and its threshold-and-resolution ranking.

    Modelling conventions.
    - Python [str] values are [string]s; a field that is [None] or a pandas
      [NaN] is [None : option string].
    - Cosine distances and similarity scores are exact rationals ([Q]); only
      their order and the subtraction [1 - dist] are used by the code.
    - The sentence-transformer model and the hnswlib index are external
      collaborators: they appear as the operations of the class [Backend],
      each of which may raise.
    - A Python exception is a value of [exn]; a method of the class is a
      computation in the state-and-exception monad [M] over the [World]
      (the instance [self] and the file system). *)

From Stdlib Require Import Ascii String QArith.
From stdpp Require Import gmap strings list sorting pretty.

Local Open Scope string_scope.

(** ** Exceptions *)

Inductive exn : Type :=
  | AttributeError (attr : string)
  | ValueError (msg : string)
  | FileNotFoundError (msg : string)
  | IndexError (msg : string)
  | TypeError (msg : string)
  | ParserError
  | RuntimeError (msg : string).

Inductive result (A : Type) : Type :=
  | Ok (a : A)
  | Raise (e : exn).
Arguments Ok {A} a.
Arguments Raise {A} e.

(** ** Text normaliser: [create_ticket_string] *)

Module Normalizer.

(** [str.isspace] on the code points below 256. *)
Definition is_space (a : ascii) : bool :=
  let n := N_of_ascii a in
  ((9 <=? n) && (n <=? 13) || (28 <=? n) && (n <=? 32)
   || (n =? 133) || (n =? 160))%N.

Fixpoint lstrip (s : string) : string :=
  match s with
  | EmptyString => EmptyString
  | String a s' => if is_space a then lstrip s' else s
  end.

Fixpoint rstrip (s : string) : string :=
  match s with
  | EmptyString => EmptyString
  | String a s' =>
      match rstrip s' with
      | EmptyString => if is_space a then EmptyString else String a EmptyString
      | r => String a r
      end
  end.

(** [s.strip()] *)
Definition strip (s : string) : string := rstrip (lstrip s).

(** [if pd.isna(x): x = ""] *)
Definition na_to_empty (x : option string) : string :=
  match x with
  | None => ""
  | Some s => s
  end.

(** [create_ticket_string(self, issue, category, description)] *)
Definition create_ticket_string (issue category description : option string)
  : string :=
  let issue := na_to_empty issue in
  let category := na_to_empty category in
  let description := na_to_empty description in
  strip (issue +:+ " " +:+ category +:+ " " +:+ description).

(** Vocabulary used to state what "trimmed" means. *)
Fixpoint all_space (s : string) : bool :=
  match s with
  | EmptyString => true
  | String a s' => is_space a && all_space s'
  end.

Definition starts_with_space (s : string) : bool :=
  match s with
  | EmptyString => false
  | String a _ => is_space a
  end.

Fixpoint ends_with_space (s : string) : bool :=
  match s with
  | EmptyString => false
  | String a EmptyString => is_space a
  | String _ s' => ends_with_space s'
  end.

(** The reading of the specification: keep the fields that are present and
    join them with single spaces ([" ".join(present)]). *)
Definition present_fields (fields : list (option string)) : list string :=
  omap id fields.

Fixpoint join_with_space (l : list string) : string :=
  match l with
  | [] => ""
  | [s] => s
  | s :: l' => s +:+ " " +:+ join_with_space l'
  end.

Definition spec_normalize (issue category description : option string)
  : string :=
  strip (join_with_space (present_fields [issue; category; description])).

End Normalizer.

Export Normalizer.

(** ** Corpus and match records *)

(** A value of the ['Ticket ID'] column. An empty cell is read by pandas as
    [NaN], which is different from every value, itself included. *)
Inductive TicketId : Type :=
  | NaN
  | Id (s : string).

#[global] Instance TicketId_eq_dec : EqDecision TicketId.
Proof. solve_decision. Defined.

(** [df['Ticket ID'] == ticket_id], on one cell *)
Definition ticket_id_eqb (a b : TicketId) : bool :=
  match a, b with
  | Id s, Id t => bool_decide (s = t)
  | _, _ => false
  end.

(** One row of the corpus table, with the columns the code reads. The
    [Resolved] column is taken to hold booleans: a cell on which the
    [int(...)] of the sort key raises (an empty cell, a text) is outside
    this model, so what is proved of a sorted list is proved of the calls
    in which the sort key can be computed. *)
Record Row : Type := mkRow {
  TicketID : TicketId;
  Issue : option string;
  Category : option string;
  Description : option string;
  Resolved : bool;
  Resolution : option string }.

Abbreviation DataFrame := (list Row).

(** The dictionary appended to [results] for one match. *)
Record Match : Type := mkMatch {
  ticket_id : TicketId;
  similarity_score : Q;
  issue : option string;
  category : option string;
  description : option string;
  resolved : bool;
  resolution : option string }.

(** ** External collaborators *)

(** The sentence-transformer model ([model_encode]) and the hnswlib index.
    An hnswlib method that mutates the index object returns the new value of
    the object; a method that can raise returns a [result]. *)
Class Backend : Type := {
  Vector : Type;
  Index : Type;
  model_encode : list string -> result (list Vector);
  hnsw_Index : nat -> Index;
  hnsw_init_index : Index -> nat -> nat -> nat -> result Index;
  hnsw_add_items : Index -> list Vector -> list nat -> result Index;
  hnsw_set_ef : Index -> nat -> Index;
  hnsw_load_index : Index -> Index -> result Index;
  hnsw_knn_query : Index -> Vector -> Z -> result (list (nat * Q));
  hnsw_get_current_count : Index -> nat }.

(** ** The instance, the file system and the monad of methods *)

Section Engine.
Context `{B : Backend}.

(** The attributes of [self]. An attribute that was never assigned is [None]
    (reading it raises [AttributeError]); an attribute assigned Python's
    [None] is [Some None]. The attribute [model] is the model of the
    backend and has no field of its own. *)
Record TicketMatchingSystem : Type := mkSelf {
  index : option (option Index);
  ticket_ids : option (list TicketId);
  resolved_tickets_data : option (option DataFrame);
  dim : option nat;
  index_path : option (option string);
  resolved_tickets_data_path : option string }.

(** The object before [__init__] has assigned anything. *)
Definition bare : TicketMatchingSystem :=
  mkSelf None None None None None None.

(** What a path of the file system holds. *)
Inductive file : Type :=
  | CsvFile (df : DataFrame)
  | IndexFile (blob : Index).

Record World : Type := mkWorld {
  self : TicketMatchingSystem;
  fs : gmap string file }.

Definition M (A : Type) : Type := World -> result A * World.

Definition ret {A} (a : A) : M A := fun w => (Ok a, w).

Definition raise {A} (e : exn) : M A := fun w => (Raise e, w).

Definition bind {A C} (m : M A) (k : A -> M C) : M C :=
  fun w =>
    match m w with
    | (Ok a, w') => k a w'
    | (Raise e, w') => (Raise e, w')
    end.

Definition lift {A} (r : result A) : M A := fun w => (r, w).

Definition getattr {A} (name : string)
    (proj : TicketMatchingSystem -> option A) : M A :=
  fun w =>
    match proj (self w) with
    | Some v => (Ok v, w)
    | None => (Raise (AttributeError name), w)
    end.

Definition setattr (upd : TicketMatchingSystem -> TicketMatchingSystem)
  : M unit :=
  fun w => (Ok tt, mkWorld (upd (self w)) (fs w)).

Definition set_index (v : option Index) (s : TicketMatchingSystem) :=
  mkSelf (Some v) (ticket_ids s) (resolved_tickets_data s) (dim s)
         (index_path s) (resolved_tickets_data_path s).

Definition set_ticket_ids (v : list TicketId) (s : TicketMatchingSystem) :=
  mkSelf (index s) (Some v) (resolved_tickets_data s) (dim s)
         (index_path s) (resolved_tickets_data_path s).

Definition set_resolved_tickets_data (v : option DataFrame)
    (s : TicketMatchingSystem) :=
  mkSelf (index s) (ticket_ids s) (Some v) (dim s)
         (index_path s) (resolved_tickets_data_path s).

Definition set_dim (v : nat) (s : TicketMatchingSystem) :=
  mkSelf (index s) (ticket_ids s) (resolved_tickets_data s) (Some v)
         (index_path s) (resolved_tickets_data_path s).

Definition set_index_path (v : option string) (s : TicketMatchingSystem) :=
  mkSelf (index s) (ticket_ids s) (resolved_tickets_data s) (dim s)
         (Some v) (resolved_tickets_data_path s).

Definition set_resolved_tickets_data_path (v : string)
    (s : TicketMatchingSystem) :=
  mkSelf (index s) (ticket_ids s) (resolved_tickets_data s) (dim s)
         (index_path s) (Some v).

(** [os.path.exists(path)] *)
Definition path_exists (path : string) : M bool :=
  fun w => (Ok (bool_decide (is_Some (fs w !! path))), w).

(** [pd.read_csv(path)] *)
Definition read_csv (path : string) : M DataFrame :=
  fun w =>
    match fs w !! path with
    | Some (CsvFile df) => (Ok df, w)
    | Some (IndexFile _) => (Raise ParserError, w)
    | None => (Raise (FileNotFoundError path), w)
    end.

Definition write_file (path : string) (f : file) : M unit :=
  fun w => (Ok tt, mkWorld (self w) (<[path := f]> (fs w))).

Definition read_file (path : string) : M (option file) :=
  fun w => (Ok (fs w !! path), w).

End Engine.

Declare Scope method_scope.
Delimit Scope method_scope with method.
Notation "'let*' x ':=' m 'in' k" := (bind m (fun x => k))
  (at level 10, x pattern, m at level 99, k at level 200) : method_scope.
Notation "m ';;' k" := (bind m (fun _ => k))
  (at level 100, k at level 200, right associativity) : method_scope.

(** ** The methods of [TicketMatchingSystem] *)

Section Methods.
Context `{B : Backend}.
Local Open Scope method_scope.

(** [generate_embeddings(self, texts)] with [texts] a list:
    [self.model.encode(texts)] *)
Definition generate_embeddings_list (texts : list string)
  : M (list Vector) :=
  lift (model_encode texts).

(** [generate_embeddings(self, texts)] with [texts] a [str]:
    [self.model.encode([texts])[0]] *)
Definition generate_embeddings (texts : string) : M Vector :=
  let* vs := lift (model_encode [texts]) in
  match vs with
  | v :: _ => ret v
  | [] => raise (IndexError "index 0 is out of bounds")
  end.

(** A call [self.index.m(...)] of a method [m] that works on the index
    object in place. *)
Definition on_index (m : Index -> result Index) : M unit :=
  let* i := getattr "index" index in
  match i with
  | Some i =>
      let* i' := lift (m i) in
      setattr (set_index (Some i'))
  | None => raise (AttributeError "NoneType")
  end.

(** [save_index(self, save_path)] *)
Definition save_index (save_path : string) : M unit :=
  let* i := getattr "index" index in
  match i with
  | None => raise (ValueError "Index has not been built yet")
  | Some i => write_file save_path (IndexFile i)
  end.

(** [load_index(self, load_path)] *)
Definition load_index (load_path : string) : M unit :=
  let* d := getattr "dim" dim in
  setattr (set_index (Some (hnsw_Index d))) ;;
  let* f := read_file load_path in
  match f with
  | Some (IndexFile blob) =>
      on_index (fun i => hnsw_load_index i blob) ;;
      on_index (fun i => Ok (hnsw_set_ef i 50))
  | _ => raise (RuntimeError "Cannot open file")
  end.

(** [load_resolved_tickets_data(self, resolved_tickets_data_path)] *)
Definition load_resolved_tickets_data (path : string) : M unit :=
  let* df := read_csv path in
  setattr (set_resolved_tickets_data (Some df)) ;;
  setattr (set_ticket_ids (map TicketID df)).

(** [build_index_from_csv(self, csv_path, save_path="ticket_index.bin")] *)
Definition build_index_from_csv (csv_path : string) (save_path : string)
  : M unit :=
  let* df := read_csv csv_path in
  setattr (set_resolved_tickets_data (Some df)) ;;
  let ticket_strings :=
    map (fun row =>
           create_ticket_string (Issue row) (Category row) (Description row))
        df in
  setattr (set_ticket_ids (map TicketID df)) ;;
  let* embeddings := generate_embeddings_list ticket_strings in
  let n_elements := length embeddings in
  let* d := getattr "dim" dim in
  setattr (set_index (Some (hnsw_Index d))) ;;
  on_index (fun i => hnsw_init_index i n_elements 200 16) ;;
  on_index (fun i => hnsw_add_items i embeddings (seq 0 n_elements)) ;;
  on_index (fun i => Ok (hnsw_set_ef i 50)) ;;
  save_index save_path.

(** [not s] for a [str] *)
Definition falsy (s : string) : bool := bool_decide (s = "").

(** [__init__(self, resolved_tickets_data_path, model_name, index_path)];
    the result is [None] on both normal exits. The assignment
    [self.model = SentenceTransformer(model_name)], which comes first after
    the early return, has no step here: the [Backend] is the model once it
    is loaded. A failure of that load, and the files of the model cache, are
    outside this model; [fs] holds the corpus and index files only. *)
Definition __init__ (data_path : string) (idx_path : option string)
  : M unit :=
  if falsy data_path then ret tt
  else
    setattr (set_index None) ;;
    setattr (set_ticket_ids []) ;;
    setattr (set_resolved_tickets_data None) ;;
    setattr (set_dim 384) ;;
    setattr (set_index_path idx_path) ;;
    setattr (set_resolved_tickets_data_path data_path) ;;
    let* ex := path_exists data_path in
    if negb ex then
      raise (FileNotFoundError "Resolved tickets data file not found")
    else
      match idx_path with
      | Some p =>
          if falsy p then build_index_from_csv data_path "ticket_index.bin"
          else
            let* ex := path_exists p in
            if negb ex then raise (FileNotFoundError "Index file not found")
            else
              load_index p ;;
              load_resolved_tickets_data data_path
      | None => build_index_from_csv data_path "ticket_index.bin"
      end.

(** [TicketMatchingSystem(resolved_tickets_data_path, index_path=...)]:
    a fresh object is passed to [__init__]; the caller gets the object only
    when [__init__] returns. *)
Definition new (data_path : string) (idx_path : option string)
    (files : gmap string file)
  : result TicketMatchingSystem * gmap string file :=
  match __init__ data_path idx_path (mkWorld bare files) with
  | (Ok _, w) => (Ok (self w), fs w)
  | (Raise e, w) => (Raise e, fs w)
  end.

End Methods.

(** ** Ranking: [find_similar_tickets] *)

Module Ranker.

(** [x < y] on scores *)
Definition Qltb (x y : Q) : bool :=
  match (x ?= y)%Q with
  | Lt => true
  | _ => false
  end.

(** The key of [results.sort]:
    [lambda x: (-int(x['resolved']), -x['similarity_score'])] *)
Definition sort_key (x : Match) : Z * Q :=
  ((- Z.b2z (resolved x))%Z, (- similarity_score x)%Q).

(** [a < b] on two keys, as Python compares tuples: the first components
    decide unless they are equal. *)
Definition key_ltb (a b : Z * Q) : bool :=
  if (fst a =? fst b)%Z then Qltb (snd a) (snd b)
  else (fst a <? fst b)%Z.

(** [a <= b] on keys: the negation of [b < a]. *)
Definition key_le (a b : Z * Q) : Prop :=
  (fst a < fst b)%Z \/ (fst a = fst b /\ (snd a <= snd b)%Q).

(** The order in which the sort leaves two matches. *)
Definition before (x y : Match) : Prop := key_le (sort_key x) (sort_key y).

(** Two keys neither of which is smaller than the other. *)
Definition same_key (a b : Z * Q) : bool :=
  negb (key_ltb a b) && negb (key_ltb b a).

(** [list.sort(key=...)] is a stable sort that only uses [<] on the keys.
    The result of a stable sort is determined by the input and the order of
    the keys, so it is given here as the stable insertion sort: an element
    is moved past the elements of strictly smaller key only. *)
Fixpoint insert_by_key (x : Match) (l : list Match) : list Match :=
  match l with
  | [] => [x]
  | y :: l' =>
      if key_ltb (sort_key y) (sort_key x) then y :: insert_by_key x l'
      else x :: l
  end.

Fixpoint sort_by_key (l : list Match) : list Match :=
  match l with
  | [] => []
  | x :: l' => insert_by_key x (sort_by_key l')
  end.

(** [df[df['Ticket ID'] == ticket_id]] *)
Definition rows_with_id (df : DataFrame) (t : TicketId) : DataFrame :=
  filter (fun row => ticket_id_eqb (TicketID row) t = true) df.

(** The dictionary built from one row and one score. *)
Definition make_match (t : TicketId) (score : Q) (row : Row) : Match :=
  mkMatch t score (Issue row) (Category row) (Description row)
          (Resolved row) (Resolution row).

(** [row] is at position [n] of [df] and is the first row of [df], in row
    order, whose identifier is [t]. *)
Definition first_row_with_id (df : DataFrame) (t : TicketId) (n : nat)
    (row : Row) : Prop :=
  df !! n = Some row
  /\ TicketID row = t
  /\ forall (n' : nat) (row' : Row),
       (n' < n)%nat -> df !! n' = Some row' -> TicketID row' <> t.

(** The match [m] carries the fields of [row]. *)
Definition snapshot_of (row : Row) (m : Match) : Prop :=
  issue m = Issue row
  /\ category m = Category row
  /\ description m = Description row
  /\ resolved m = Resolved row
  /\ resolution m = Resolution row.

End Ranker.

Export Ranker.

Section Query.
Context `{B : Backend}.
Local Open Scope method_scope.

(** The body of the loop [for idx, dist in zip(labels[0], distances[0])],
    run over the remaining pairs with the [results] collected so far. *)
Fixpoint collect_results (raw : list (nat * Q)) (similarity_threshold : Q)
    (results : list Match) : M (list Match) :=
  match raw with
  | [] => ret results
  | (idx, dist) :: raw' =>
      let similarity_score := (1 - dist)%Q in
      if Qle_bool similarity_threshold similarity_score then
        let* ids := getattr "ticket_ids" ticket_ids in
        match ids !! idx with
        | None => raise (IndexError "list index out of range")
        | Some ticket_id =>
            let* data := getattr "resolved_tickets_data"
                                 resolved_tickets_data in
            match data with
            | None => raise (TypeError "NoneType is not subscriptable")
            | Some df =>
                match rows_with_id df ticket_id with
                | [] =>
                    raise (IndexError
                             "single positional indexer is out-of-bounds")
                | ticket_row :: _ =>
                    collect_results raw' similarity_threshold
                      (results ++
                         [make_match ticket_id similarity_score ticket_row])
                end
            end
        end
      else collect_results raw' similarity_threshold results
  end.

(** [find_similar_tickets(self, issue, category, description, k=3,
    similarity_threshold=0.5)] *)
Definition find_similar_tickets (issue category description : option string)
    (k : Z) (similarity_threshold : Q) : M (list Match) :=
  let* i := getattr "index" index in
  match i with
  | None => raise (ValueError "Index has not been built yet")
  | Some i =>
      let* data := getattr "resolved_tickets_data" resolved_tickets_data in
      match data with
      | None =>
          raise (ValueError "Resolved tickets data has not been loaded yet")
      | Some _ =>
          let query_string :=
            create_ticket_string issue category description in
          let* query_embedding := generate_embeddings query_string in
          let* i := getattr "index" index in
          match i with
          | None => raise (AttributeError "NoneType")
          | Some i =>
              let* raw := lift (hnsw_knn_query i query_embedding k) in
              let* results := collect_results raw similarity_threshold [] in
              ret (sort_by_key results)
          end
      end
  end.

(** The raw results that pass the test
    [similarity_score >= similarity_threshold]. *)
Definition above_threshold (similarity_threshold : Q) (raw : list (nat * Q))
  : list (nat * Q) :=
  filter (fun p => Qle_bool similarity_threshold (1 - snd p) = true) raw.

(** [m] is the dictionary that the loop body builds for the raw result [p]
    on the instance [s]. *)
Definition match_of (s : TicketMatchingSystem) (p : nat * Q) (m : Match)
  : Prop :=
  exists ids df t row rest,
    ticket_ids s = Some ids
    /\ resolved_tickets_data s = Some (Some df)
    /\ ids !! fst p = Some t
    /\ rows_with_id df t = row :: rest
    /\ m = make_match t (1 - snd p) row.

(** The defaults of the signature. *)
Definition default_k : Z := 3.
Definition default_similarity_threshold : Q := 0.5.

End Query.

(** ** A small exact backend

    An instance of [Backend] over one-dimensional vectors, used to run the
    engine on concrete corpora: a text is embedded as its length, the
    distance of two vectors [v], [w] is [|v - w| / (|v - w| + 10)], and a
    query scans all stored vectors. *)

Module Toy.

Record ToyIndex : Type := mkToy {
  toy_dim : nat;
  toy_max_elements : nat;
  toy_items : list (nat * Z);
  toy_ef : nat }.

Definition toy_distance (v w : Z) : Q :=
  Qmake (Z.abs (v - w)) (Z.to_pos (Z.abs (v - w) + 10)).

Fixpoint insert_by_distance (x : nat * Q) (l : list (nat * Q))
  : list (nat * Q) :=
  match l with
  | [] => [x]
  | y :: l' =>
      if Qltb (snd y) (snd x) then y :: insert_by_distance x l' else x :: l
  end.

Definition sort_by_distance (l : list (nat * Q)) : list (nat * Q) :=
  foldr insert_by_distance [] l.

Definition toy_init_index (i : ToyIndex) (max_elements ef_construction m : nat)
  : result ToyIndex :=
  Ok (mkToy (toy_dim i) max_elements [] (toy_ef i)).

Definition toy_add_items (i : ToyIndex) (vs : list Z) (labels : list nat)
  : result ToyIndex :=
  if bool_decide (length (toy_items i) + length vs <= toy_max_elements i)%nat
  then Ok (mkToy (toy_dim i) (toy_max_elements i)
                 (toy_items i ++ zip labels vs) (toy_ef i))
  else Raise (RuntimeError "exceeds the specified limit").

Definition toy_knn_query (i : ToyIndex) (v : Z) (k : Z)
  : result (list (nat * Q)) :=
  if bool_decide (0 < k <= Z.of_nat (length (toy_items i)))%Z
  then Ok (take (Z.to_nat k)
             (sort_by_distance
                (map (fun e => (fst e, toy_distance v (snd e)))
                     (toy_items i))))
  else Raise (RuntimeError "Cannot return the results").

#[export] Instance backend : Backend := {|
  Vector := Z;
  Index := ToyIndex;
  model_encode texts :=
    Ok (map (fun s => Z.of_nat (String.length s)) texts);
  hnsw_Index d := mkToy d 0 [] 10;
  hnsw_init_index := toy_init_index;
  hnsw_add_items := toy_add_items;
  hnsw_set_ef i ef := mkToy (toy_dim i) (toy_max_elements i) (toy_items i) ef;
  hnsw_load_index _ blob := Ok blob;
  hnsw_knn_query := toy_knn_query;
  hnsw_get_current_count i := length (toy_items i) |}.

End Toy.

(** ** Concrete corpora *)

Module Examples.
Import Toy.

Definition csv_path : string := "data/combined_data.csv".

Definition corpus : DataFrame :=
  [ mkRow (Id "T1") (Some "Printer WiFi issue") (Some "Hardware") None
          false None;
    mkRow (Id "T2") (Some "Printer offline") (Some "Hardware") None
          true (Some "Reinstall driver");
    mkRow (Id "T3") (Some "VPN timeout") (Some "Network")
          (Some "drops once an hour") false None;
    mkRow (Id "T4") (Some "Password reset") (Some "Account")
          (Some "user forgot the password and is locked out") false None ].

Definition files0 : gmap string file := {[ csv_path := CsvFile corpus ]}.

Definition built_index : ToyIndex :=
  mkToy 384 4 [(0%nat, 27%Z); (1%nat, 24%Z); (2%nat, 38%Z); (3%nat, 65%Z)] 50.

(** The instance and the files after
    [TicketMatchingSystem(resolved_tickets_data_path=csv_path)]. *)
Definition ready : World :=
  mkWorld
    (mkSelf (Some (Some built_index)) (Some [Id "T1"; Id "T2"; Id "T3"; Id "T4"])
            (Some (Some corpus)) (Some 384%nat) (Some None) (Some csv_path))
    (<["ticket_index.bin" := IndexFile built_index]> files0).

Definition raw_results : list (nat * Q) :=
  [ (0%nat, 1 # 11); (1%nat, 4 # 14); (2%nat, 10 # 20); (3%nat, 37 # 47) ]%Q.

Definition match_T1 : Match :=
  mkMatch (Id "T1") (10 # 11) (Some "Printer WiFi issue") (Some "Hardware")
          None false None.

Definition match_T2 : Match :=
  mkMatch (Id "T2") (10 # 14) (Some "Printer offline") (Some "Hardware") None
          true (Some "Reinstall driver").

Definition match_T3 : Match :=
  mkMatch (Id "T3") (10 # 20) (Some "VPN timeout") (Some "Network")
          (Some "drops once an hour") false None.

(** What the query below returns on [ready]: the resolved ticket first,
    although [T1] is closer; [T3] sits exactly on the threshold 0.5. *)
Definition ranked : list Match := [match_T2; match_T1; match_T3].

(** A corpus in which two rows carry the same identifier. *)
Definition corpus_dup : DataFrame :=
  [ mkRow (Id "T7") (Some "Printer offline") (Some "Hardware") None
          true (Some "Reinstall driver");
    mkRow (Id "T7") (Some "Printer offline again") (Some "Hardware") None
          false None ].

Definition ready_dup : World :=
  mkWorld
    (mkSelf (Some (Some (mkToy 384 2 [(0%nat, 24%Z); (1%nat, 30%Z)] 50)))
            (Some [Id "T7"; Id "T7"]) (Some (Some corpus_dup)) (Some 384%nat)
            (Some None) (Some csv_path))
    (<["ticket_index.bin" :=
         IndexFile (mkToy 384 2 [(0%nat, 24%Z); (1%nat, 30%Z)] 50)]>
       {[ csv_path := CsvFile corpus_dup ]}).

Definition match_T7 : Match :=
  mkMatch (Id "T7") (10 # 13) (Some "Printer offline") (Some "Hardware") None
          true (Some "Reinstall driver").

Definition ranked_dup : list Match := [match_T7; match_T7].

(** A corpus whose first row has an empty identifier cell. *)
Definition corpus_nan : DataFrame :=
  [ mkRow NaN (Some "Printer WiFi issue") (Some "Hardware") None false None;
    mkRow (Id "T2") (Some "Printer offline") (Some "Hardware") None
          true (Some "Reinstall driver") ].

Definition ready_nan : World :=
  mkWorld
    (mkSelf (Some (Some (mkToy 384 2 [(0%nat, 27%Z); (1%nat, 24%Z)] 50)))
            (Some [NaN; Id "T2"]) (Some (Some corpus_nan)) (Some 384%nat)
            (Some None) (Some csv_path))
    (<["ticket_index.bin" :=
         IndexFile (mkToy 384 2 [(0%nat, 27%Z); (1%nat, 24%Z)] 50)]>
       {[ csv_path := CsvFile corpus_nan ]}).

(** An index file saved from the four-row corpus next to a corpus file that
    holds one row only. *)
Definition files_mismatch : gmap string file :=
  <["ticket_index.bin" := IndexFile built_index]>
    {[ csv_path := CsvFile [mkRow (Id "T9") (Some "Mouse broken") None None
                                  false None] ]}.

End Examples.

(** ** The resolution system: [TicketResolutionSystem]

    The inference client and [json.dumps] are external: they are the
    operations of the class [Provider]. A call of the client is recorded in
    a log of requests, so that what is sent, and how often, can be stated. *)

Module Resolution.

(** One ticket of [serializable_tickets]. *)
Record SerializableTicket : Type := mkSerializable {
  s_ticket_id : string;
  s_similarity_score : Q;
  s_issue : string;
  s_category : string;
  s_description : string;
  s_resolved : bool;
  s_resolution : string }.

(** One entry of [messages]. *)
Record ChatMessage : Type := mkMessage {
  role : string;
  content : string }.

(** The arguments of one call of [client.chat_completion]. *)
Record ChatRequest : Type := mkRequest {
  messages : list ChatMessage;
  max_tokens : nat;
  temperature : Q;
  top_p : Q }.

(** [chat_completion] answers with the contents of [response['choices']],
    in order, or raises. *)
Class Provider : Type := {
  NewTicket : Type;
  json_dumps_new_ticket : NewTicket -> string;
  json_dumps_tickets : list SerializableTicket -> string;
  chat_completion : ChatRequest -> result (list string) }.

(** [str(x)] for a field of a match: a missing cell is the float [nan]. *)
Definition str_field (x : option string) : string :=
  match x with
  | None => "nan"
  | Some s => s
  end.

(** [str(ticket["ticket_id"])] *)
Definition str_ticket_id (t : TicketId) : string :=
  match t with
  | NaN => "nan"
  | Id s => s
  end.

(** The truth value of a field of a match: [nan] is true, a string is true
    unless it is empty. *)
Definition truthy (x : option string) : bool :=
  match x with
  | None => true
  | Some s => negb (falsy s)
  end.

(** The dictionary [serializable_ticket] built from one match. *)
Definition serializable (ticket : Match) : SerializableTicket :=
  mkSerializable
    (str_ticket_id (ticket_id ticket))
    (similarity_score ticket)
    (str_field (issue ticket))
    (str_field (category ticket))
    (str_field (description ticket))
    (resolved ticket)
    (if truthy (resolution ticket) then str_field (resolution ticket)
     else "").

Definition resolved_prompt_head : string :=
"
        You are an AI assistant that helps Human Agents respond to support tickets. 
        
        I will provide you with a new support ticket and details from ".

Definition resolved_prompt_middle : string :=
" similar resolved tickets from our database.
        
        Your task is to:
        1. Analyze the new ticket and the resolved similar tickets
        2. Create a coherent response that addresses the new ticket's issue
        3. Include the most relevant solution from the resolved tickets
        4. End the message by saying: Best, your Smart assistant 
        Here are the similar resolved tickets:
        ".

Definition resolved_prompt_tail : string :=
"
        
        Please create a response that the agent can use to address the new ticket. Be concise but comprehensive.
        ".

Definition unresolved_prompt_head : string :=
"
        You are an AI assistant that helps Human Agents respond to support tickets.
        
        I will provide you with a new support ticket and details from ".

Definition unresolved_prompt_middle : string :=
" similar tickets from our database, but none of these similar tickets have been resolved.
        
        Your task is to:
        1. Analyze the new ticket and the similar unresolved tickets
        2. Create a coherent response that acknowledges the ongoing nature of this issue
        3. Share details about the similar tickets and what approaches did not work
        4. Suggest potential next steps based on the history of attempts
        5. Format your response to be ready for a human agent to review and send
        6. End the message by saying: Best, your Smart assistant
        
        Here are the similar unresolved tickets:
        ".

Definition unresolved_prompt_tail : string :=
"
        
        Please create a response that the agent can use to address the new ticket, acknowledging that we don't have a proven solution yet.
        ".

Definition no_evidence_system_prompt : string :=
"You are a technical support assistant. Provide a very brief solution suggestion (max 15 words) for the following issue ONLY if you are highly confident. If not confident, respond with 'No immediate solution available.'".

Definition no_evidence_reply_head : string :=
"No matching tickets found in the database.

Suggested direction: ".

Definition no_evidence_reply_tail : string :=
"

Best, your Smart assistant".

Section ResolutionMethods.
Context `{P : Provider}.

(** [_craft_prompt_for_resolved_tickets(self, new_ticket,
    resolved_tickets)] *)
Definition _craft_prompt_for_resolved_tickets (new_ticket : NewTicket)
    (resolved_tickets : list SerializableTicket) : string :=
  resolved_prompt_head +:+ pretty (length resolved_tickets)
  +:+ resolved_prompt_middle +:+ json_dumps_tickets resolved_tickets
  +:+ resolved_prompt_tail.

(** [_craft_prompt_for_unresolved_tickets(self, new_ticket,
    similar_tickets)] *)
Definition _craft_prompt_for_unresolved_tickets (new_ticket : NewTicket)
    (similar_tickets : list SerializableTicket) : string :=
  unresolved_prompt_head +:+ pretty (length similar_tickets)
  +:+ unresolved_prompt_middle +:+ json_dumps_tickets similar_tickets
  +:+ unresolved_prompt_tail.

(** A method of [TicketResolutionSystem]: it may raise, and it extends the
    log of the requests sent to the client. *)
Definition R (A : Type) : Type :=
  list ChatRequest -> result A * list ChatRequest.

Definition r_ret {A} (a : A) : R A := fun log => (Ok a, log).

Definition r_raise {A} (e : exn) : R A := fun log => (Raise e, log).

Definition r_bind {A C} (m : R A) (k : A -> R C) : R C :=
  fun log =>
    match m log with
    | (Ok a, log') => k a log'
    | (Raise e, log') => (Raise e, log')
    end.

(** [self.client.chat_completion(messages=..., max_tokens=...,
    temperature=..., top_p=...)] *)
Definition call_client (request : ChatRequest) : R (list string) :=
  fun log => (chat_completion request, (log ++ [request])%list).

(** [response['choices'][0]['message']['content']] *)
Definition first_content (choices : list string) : R string :=
  match choices with
  | c :: _ => r_ret c
  | [] => r_raise (IndexError "list index out of range")
  end.

(** The request of the branch for an empty list of tickets. *)
Definition no_evidence_request (new_ticket : NewTicket) : ChatRequest :=
  mkRequest
    [ mkMessage "system" no_evidence_system_prompt;
      mkMessage "user" ("Issue: " +:+ json_dumps_new_ticket new_ticket) ]
    50 0.1 0.1.

(** The request of the other branch, for the prompt chosen there. *)
Definition evidence_request (new_ticket : NewTicket) (prompt : string)
  : ChatRequest :=
  mkRequest
    [ mkMessage "system" prompt;
      mkMessage "user"
        ("New Ticket: " +:+ json_dumps_new_ticket new_ticket) ]
    1024 0.3 0.95.

(** [generate_response(self, new_ticket, similar_tickets)] *)
Definition generate_response (new_ticket : NewTicket)
    (similar_tickets : list Match) : R string :=
  match similar_tickets with
  | [] =>
      r_bind (call_client (no_evidence_request new_ticket)) (fun response =>
      r_bind (first_content response) (fun suggestion =>
      r_ret (no_evidence_reply_head +:+ suggestion
             +:+ no_evidence_reply_tail)))
  | _ :: _ =>
      let serializable_tickets := map serializable similar_tickets in
      let resolved_tickets :=
        filter (fun ticket => s_resolved ticket = true)
               serializable_tickets in
      let prompt :=
        match resolved_tickets with
        | _ :: _ =>
            _craft_prompt_for_resolved_tickets new_ticket resolved_tickets
        | [] =>
            _craft_prompt_for_unresolved_tickets new_ticket
              serializable_tickets
        end in
      r_bind (call_client (evidence_request new_ticket prompt))
             (fun response => first_content response)
  end.

End ResolutionMethods.

End Resolution.

(** ** A small client and further concrete instances *)

Module ToyProvider.
Import Resolution.

(** A client that answers every request with one choice; a new ticket is
    its own JSON text and a list of tickets is printed as its identifiers. *)
#[export] Instance provider : Provider := {|
  NewTicket := string;
  json_dumps_new_ticket t := t;
  json_dumps_tickets l := String.concat "," (map s_ticket_id l);
  chat_completion request :=
    if (max_tokens request <=? 50)%nat
    then Ok ["Restart the printer."]
    else Ok ["Reinstall the driver. Best, your Smart assistant"] |}.

End ToyProvider.

Module MoreExamples.
Import Toy Examples.

(** The instance that the constructor returns for [files_mismatch]: the
    index of the four-row corpus with the identifiers of the one-row
    corpus. *)
Definition loaded_mismatch : World :=
  mkWorld
    (mkSelf (Some (Some built_index)) (Some [Id "T9"])
            (Some (Some [mkRow (Id "T9") (Some "Mouse broken") None None
                               false None]))
            (Some 384%nat) (Some (Some "ticket_index.bin")) (Some csv_path))
    files_mismatch.

(** Two unresolved tickets at the same distance of the query below. *)
Definition corpus_tie : DataFrame :=
  [ mkRow (Id "T5") (Some "Printer WiFi issue") (Some "Hardware") None
          false None;
    mkRow (Id "T6") (Some "Scanners WiFi issues") (Some "Hardware") None
          false None ].

Definition tie_index : ToyIndex :=
  mkToy 384 2 [(0%nat, 27%Z); (1%nat, 29%Z)] 50.

Definition ready_tie : World :=
  mkWorld
    (mkSelf (Some (Some tie_index)) (Some [Id "T5"; Id "T6"])
            (Some (Some corpus_tie)) (Some 384%nat) (Some None)
            (Some csv_path))
    (<["ticket_index.bin" := IndexFile tie_index]>
       {[ csv_path := CsvFile corpus_tie ]}).

Definition match_T5 : Match :=
  mkMatch (Id "T5") (10 # 11) (Some "Printer WiFi issue") (Some "Hardware")
          None false None.

Definition match_T6 : Match :=
  mkMatch (Id "T6") (10 # 11) (Some "Scanners WiFi issues") (Some "Hardware")
          None false None.

(** The match of [T2] for a query at distance 0. *)
Definition match_T2_exact : Match :=
  mkMatch (Id "T2") (10 # 10) (Some "Printer offline") (Some "Hardware") None
          true (Some "Reinstall driver").

End MoreExamples.

(** ** Proof automation *)

(** Reduce the projections and the setters of the world. *)
Ltac run_world :=
  cbn [self fs index dim ticket_ids resolved_tickets_data index_path
       resolved_tickets_data_path negb set_index set_ticket_ids set_dim
       set_index_path set_resolved_tickets_data
       set_resolved_tickets_data_path].

Ltac run_world_in H :=
  cbn [self fs index dim ticket_ids resolved_tickets_data index_path
       resolved_tickets_data_path negb set_index set_ticket_ids set_dim
       set_index_path set_resolved_tickets_data
       set_resolved_tickets_data_path] in H.

Ltac innermost x k :=
  lazymatch x with
  | context [match ?y with _ => _ end] => innermost y k
  | _ => k x
  end.

Ltac case_run H :=
  repeat (run_world_in H;
          match type of H with
          | context [match ?x with _ => _ end] =>
              innermost x ltac:(fun y => destruct y eqn:?);
              try discriminate H
          end);
  run_world_in H.

(** * Properties *)

(** ** The text normaliser *)

Section NormalizerFacts.

Lemma append_nil_l (t : string) : "" +:+ t = t.
Proof. reflexivity. Qed.

Lemma append_cons (a : ascii) (s t : string) :
  String a s +:+ t = String a (s +:+ t).
Proof. reflexivity. Qed.

Lemma append_assoc (a b c : string) : (a +:+ b) +:+ c = a +:+ (b +:+ c).
Proof.
  induction a as [|x a IH]; [reflexivity|].
  rewrite !append_cons, IH. reflexivity.
Qed.

Lemma lstrip_decompose (s : string) :
  exists l, s = l +:+ lstrip s /\ all_space l = true.
Proof.
  induction s as [|a s [l [Hs Hl]]]; simpl.
  - exists ""; split; reflexivity.
  - destruct (is_space a) eqn:Ha.
    + exists (String a l); split.
      * rewrite append_cons. f_equal. exact Hs.
      * simpl. rewrite Ha, Hl. reflexivity.
    + exists ""; split; reflexivity.
Qed.

Lemma rstrip_decompose (s : string) :
  exists r, s = rstrip s +:+ r /\ all_space r = true.
Proof.
  induction s as [|a s [r [Hs Hr]]]; simpl.
  - exists ""; split; reflexivity.
  - destruct (rstrip s) as [|b t] eqn:Ht.
    + rewrite append_nil_l in Hs. subst r.
      destruct (is_space a) eqn:Ha.
      * exists (String a s); split; [reflexivity|].
        simpl. rewrite Ha, Hr. reflexivity.
      * exists s. split; [reflexivity | exact Hr].
    + exists r. split; [|exact Hr].
      rewrite append_cons. f_equal. exact Hs.
Qed.

Lemma strip_decompose (s : string) :
  exists l r, s = l +:+ strip s +:+ r
              /\ all_space l = true /\ all_space r = true.
Proof.
  destruct (lstrip_decompose s) as [l [Hs Hl]].
  destruct (rstrip_decompose (lstrip s)) as [r [Hm Hr]].
  exists l, r. unfold strip. rewrite <- Hm. auto.
Qed.

Lemma lstrip_no_leading_space (s : string) :
  starts_with_space (lstrip s) = false.
Proof.
  induction s as [|a s IH]; simpl; [reflexivity|].
  destruct (is_space a) eqn:Ha; simpl; [exact IH | now rewrite ?Ha].
Qed.

Lemma rstrip_keeps_head (s : string) :
  starts_with_space s = false -> starts_with_space (rstrip s) = false.
Proof.
  destruct s as [|a s]; simpl; [reflexivity|]. intros Ha.
  destruct (rstrip s); rewrite ?Ha; simpl; now rewrite ?Ha.
Qed.

Lemma rstrip_no_trailing_space (s : string) :
  ends_with_space (rstrip s) = false.
Proof.
  induction s as [|a s IH]; simpl; [reflexivity|].
  destruct (rstrip s) as [|b t] eqn:Ht.
  - destruct (is_space a) eqn:Ha; simpl; now rewrite ?Ha.
  - exact IH.
Qed.

Lemma strip_trimmed (s : string) :
  starts_with_space (strip s) = false /\ ends_with_space (strip s) = false.
Proof.
  split.
  - apply rstrip_keeps_head, lstrip_no_leading_space.
  - apply rstrip_no_trailing_space.
Qed.

Lemma rstrip_space_r (s : string) : rstrip (s +:+ " ") = rstrip s.
Proof.
  induction s as [|a s IH]; [reflexivity|].
  rewrite append_cons. simpl. rewrite IH. reflexivity.
Qed.

Lemma strip_space_l (s : string) : strip (" " +:+ s) = strip s.
Proof. reflexivity. Qed.

Lemma strip_space_r (s : string) : strip (s +:+ " ") = strip s.
Proof.
  unfold strip. induction s as [|a s IH]; [reflexivity|].
  rewrite append_cons. simpl.
  destruct (is_space a); [exact IH|].
  rewrite <- append_cons. apply rstrip_space_r.
Qed.

End NormalizerFacts.

(** C4 (as the code has it). [create_ticket_string] is total; a missing
    field counts as the empty string; the result is the string
    [issue category description], the three fields in this order with one
    space after the first and one after the second, without its leading and
    trailing whitespace. It is the trimmed single-space join of the fields
    that are present, except when the category alone is missing: both
    separators are then kept between issue and description. *)
Theorem create_ticket_string_spec (i c d : option string) :
  (exists l r,
      na_to_empty i +:+ " " +:+ na_to_empty c +:+ " " +:+ na_to_empty d
      = l +:+ create_ticket_string i c d +:+ r
      /\ all_space l = true /\ all_space r = true)
  /\ starts_with_space (create_ticket_string i c d) = false
  /\ ends_with_space (create_ticket_string i c d) = false
  /\ create_ticket_string i c d
     = match i, c, d with
       | Some a, None, Some b => strip (a +:+ "  " +:+ b)
       | _, _, _ => spec_normalize i c d
       end.
Proof.
  split; [apply strip_decompose|].
  split; [apply strip_trimmed|].
  split; [apply strip_trimmed|].
  unfold create_ticket_string, spec_normalize.
  destruct i as [a|], c as [b|], d as [e|]; simpl; try reflexivity.
  - rewrite <- (strip_space_r (a +:+ " " +:+ b)).
    rewrite !append_assoc. reflexivity.
  - rewrite <- (strip_space_r a), <- (strip_space_r (a +:+ " ")).
    rewrite !append_assoc. reflexivity.
  - rewrite <- (strip_space_r b). reflexivity.
Qed.

(** C4, as stated, fails when the category alone is missing: the result
    keeps two spaces between issue and description, so it is neither the
    present fields joined by single spaces nor the present fields put end
    to end. *)
Lemma create_ticket_string_not_join_of_present :
  create_ticket_string (Some "a") None (Some "b") = "a  b"
  /\ spec_normalize (Some "a") None (Some "b") = "a b"
  /\ create_ticket_string (Some "a") None (Some "b") <> strip ("a" +:+ "b")
  /\ ~ (forall i c d, create_ticket_string i c d = spec_normalize i c d).
Proof.
  split; [reflexivity|]. split; [reflexivity|]. split; [discriminate|].
  intros H. specialize (H (Some "a") None (Some "b")). discriminate H.
Qed.

(** ** The sort of [results] *)

Section SortFacts.

Lemma Qltb_true (x y : Q) : Qltb x y = true <-> (x < y)%Q.
Proof.
  unfold Qltb. rewrite Qlt_alt.
  destruct (x ?= y)%Q; split; congruence.
Qed.

Lemma Qltb_false (x y : Q) : Qltb x y = false <-> (y <= x)%Q.
Proof.
  rewrite <- not_true_iff_false, Qltb_true. split.
  - apply Qnot_lt_le.
  - apply Qle_not_lt.
Qed.

Lemma key_ltb_false (a b : Z * Q) : key_ltb b a = false <-> key_le a b.
Proof.
  unfold key_ltb, key_le. destruct (Z.eqb_spec (fst b) (fst a)) as [E|E].
  - rewrite Qltb_false. split; [intros H; right; split; [lia | exact H]|].
    intros [H|[_ H]]; [lia | exact H].
  - rewrite Z.ltb_ge. split; [intros H; left; lia|].
    intros [H|[H _]]; lia.
Qed.

Lemma key_ltb_true_le (a b : Z * Q) : key_ltb a b = true -> key_le a b.
Proof.
  unfold key_ltb, key_le. destruct (Z.eqb_spec (fst a) (fst b)) as [E|E].
  - rewrite Qltb_true. intros H. right. split; [exact E|].
    apply Qlt_le_weak, H.
  - rewrite Z.ltb_lt. intros H. left. exact H.
Qed.

Lemma key_le_trans (a b c : Z * Q) : key_le a b -> key_le b c -> key_le a c.
Proof.
  unfold key_le. intros [H1|[H1 H1']] [H2|[H2 H2']]; try (left; lia).
  right. split; [lia|]. eapply Qle_trans; eassumption.
Qed.

Lemma insert_by_key_perm (x : Match) (l : list Match) :
  insert_by_key x l ≡ₚ x :: l.
Proof.
  induction l as [|y l IH]; simpl; [reflexivity|].
  destruct (key_ltb (sort_key y) (sort_key x)); [|reflexivity].
  rewrite IH. apply Permutation_swap.
Qed.

Lemma sort_by_key_perm (l : list Match) : sort_by_key l ≡ₚ l.
Proof.
  induction l as [|x l IH]; simpl; [reflexivity|].
  rewrite insert_by_key_perm, IH. reflexivity.
Qed.

Lemma insert_by_key_sorted (x : Match) (l : list Match) :
  StronglySorted before l -> StronglySorted before (insert_by_key x l).
Proof.
  induction 1 as [|y l Hl IH Hy]; simpl.
  - repeat constructor.
  - destruct (key_ltb (sort_key y) (sort_key x)) eqn:E.
    + constructor; [exact IH|].
      rewrite insert_by_key_perm. constructor; [|exact Hy].
      apply key_ltb_true_le, E.
    + apply key_ltb_false in E.
      constructor; [constructor; assumption|].
      constructor; [exact E|].
      eapply Forall_impl; [exact Hy|].
      intros z Hz. eapply key_le_trans; [exact E | exact Hz].
Qed.

Lemma sort_by_key_sorted (l : list Match) :
  StronglySorted before (sort_by_key l).
Proof.
  induction l as [|x l IH]; simpl; [constructor|].
  apply insert_by_key_sorted, IH.
Qed.

Lemma same_key_le (a b : Z * Q) :
  same_key a b = true <-> key_le a b /\ key_le b a.
Proof.
  unfold same_key.
  rewrite andb_true_iff, !negb_true_iff, !key_ltb_false. tauto.
Qed.

Lemma insert_by_key_filter (k : Z * Q) (x : Match) (l : list Match) :
  filter (fun m => same_key (sort_key m) k = true) (insert_by_key x l)
  = if same_key (sort_key x) k
    then x :: filter (fun m => same_key (sort_key m) k = true) l
    else filter (fun m => same_key (sort_key m) k = true) l.
Proof.
  induction l as [|y l IH]; simpl.
  - rewrite filter_cons, filter_nil.
    destruct (same_key (sort_key x) k) eqn:E.
    + rewrite decide_True by reflexivity. reflexivity.
    + rewrite decide_False by discriminate. reflexivity.
  - destruct (key_ltb (sort_key y) (sort_key x)) eqn:Hlt.
    + rewrite !filter_cons, IH.
      destruct (same_key (sort_key y) k) eqn:Ey;
        [rewrite decide_True by reflexivity
        |rewrite decide_False by discriminate; reflexivity].
      destruct (same_key (sort_key x) k) eqn:Ex; [|reflexivity].
      apply same_key_le in Ey as [_ Hky]. apply same_key_le in Ex as [Hxk _].
      pose proof (key_le_trans _ _ _ Hxk Hky) as Hxy.
      apply key_ltb_false in Hxy. congruence.
    + rewrite (filter_cons _ x).
      destruct (same_key (sort_key x) k) eqn:Ex.
      * rewrite decide_True by reflexivity. reflexivity.
      * rewrite decide_False by discriminate. reflexivity.
Qed.

(** The sort is stable: the matches of one key keep the order in which the
    loop appended them. *)
Lemma sort_by_key_stable (k : Z * Q) (l : list Match) :
  filter (fun m => same_key (sort_key m) k = true) (sort_by_key l)
  = filter (fun m => same_key (sort_key m) k = true) l.
Proof.
  induction l as [|x l IH]; simpl; [reflexivity|].
  rewrite insert_by_key_filter, filter_cons, IH.
  destruct (same_key (sort_key x) k) eqn:Ex.
  - rewrite decide_True by reflexivity. reflexivity.
  - rewrite decide_False by discriminate. reflexivity.
Qed.

Lemma StronglySorted_lookup {A} (R : relation A) (l : list A) :
  StronglySorted R l ->
  forall (i j : nat) (a b : A),
    (i < j)%nat -> l !! i = Some a -> l !! j = Some b -> R a b.
Proof.
  induction 1 as [|x l Hl IH Hx]; intros i j a b Hij Ha Hb.
  - rewrite lookup_nil in Ha. discriminate.
  - destruct j as [|j]; [lia|]. simpl in Hb.
    destruct i as [|i]; simpl in Ha.
    + injection Ha as <-. rewrite Forall_forall in Hx.
      apply Hx. eapply list_elem_of_lookup_2, Hb.
    + apply (IH i j); [lia | assumption | assumption].
Qed.

End SortFacts.

(** ** The query *)

Section QueryFacts.
Context `{B : Backend}.
Local Open Scope list_scope.

Lemma collect_results_state (raw : list (nat * Q)) (th : Q)
    (acc : list Match) (w : World) :
  snd (collect_results raw th acc w) = w.
Proof.
  revert acc. induction raw as [|[idx dist] raw IH]; intros acc; simpl.
  - reflexivity.
  - destruct (Qle_bool th (1 - dist)); [|apply IH].
    unfold bind, getattr, raise.
    destruct (ticket_ids (self w)) as [ids|]; [|reflexivity].
    destruct (ids !! idx) as [t|]; [|reflexivity].
    destruct (resolved_tickets_data (self w)) as [[df|]|]; try reflexivity.
    destruct (rows_with_id df t); [reflexivity | apply IH].
Qed.

Lemma find_similar_tickets_state (i c d : option string) (k : Z) (th : Q)
    (w : World) :
  snd (find_similar_tickets i c d k th w) = w.
Proof.
  unfold find_similar_tickets, generate_embeddings, bind, getattr, raise,
    lift, ret.
  destruct (index (self w)) as [[ix|]|] eqn:Hix; try reflexivity.
  destruct (resolved_tickets_data (self w)) as [[df|]|]; try reflexivity.
  destruct (model_encode _) as [[|v vs]|e]; try reflexivity.
  cbn beta iota. rewrite Hix.
  destruct (hnsw_knn_query ix v k) as [raw|e]; try reflexivity.
  pose proof (collect_results_state raw th [] w) as Hs.
  destruct (collect_results raw th [] w) as [[r|e] w']; simpl in Hs; subst w';
    reflexivity.
Qed.

Lemma find_similar_tickets_eq (i c d : option string) (k : Z) (th : Q)
    (w : World) (r : result (list Match)) :
  fst (find_similar_tickets i c d k th w) = r ->
  find_similar_tickets i c d k th w = (r, w).
Proof.
  intros <-. rewrite <- (find_similar_tickets_state i c d k th w) at 3.
  apply surjective_pairing.
Qed.

Lemma collect_results_ok (raw : list (nat * Q)) (th : Q) (acc res : list Match)
    (w w' : World) :
  collect_results raw th acc w = (Ok res, w') ->
  exists ms, res = acc ++ ms
             /\ Forall2 (match_of (self w)) (above_threshold th raw) ms.
Proof.
  revert acc. induction raw as [|[idx dist] raw IH]; intros acc H.
  - injection H as <- _. exists []. rewrite app_nil_r. split; constructor.
  - simpl in H. unfold above_threshold. rewrite filter_cons. simpl.
    destruct (Qle_bool th (1 - dist)) eqn:Hth.
    + rewrite decide_True by reflexivity.
      unfold bind, getattr, raise in H.
      destruct (ticket_ids (self w)) as [ids|] eqn:Hids; [|discriminate].
      destruct (ids !! idx) as [t|] eqn:Ht; [|discriminate].
      destruct (resolved_tickets_data (self w)) as [[df|]|] eqn:Hdf;
        try discriminate.
      destruct (rows_with_id df t) as [|row rest] eqn:Hrow; [discriminate|].
      apply IH in H as [ms [-> Hms]].
      exists (make_match t (1 - dist) row :: ms).
      rewrite <- app_assoc. split; [reflexivity|].
      constructor; [|exact Hms].
      exists ids, df, t, row, rest. auto.
    + rewrite decide_False by discriminate. apply IH, H.
Qed.

Lemma find_similar_tickets_ok (i c d : option string) (k : Z) (th : Q)
    (w w' : World) (results : list Match) :
  find_similar_tickets i c d k th w = (Ok results, w') ->
  exists ix df v vs raw r,
    index (self w) = Some (Some ix)
    /\ resolved_tickets_data (self w) = Some (Some df)
    /\ model_encode [create_ticket_string i c d] = Ok (v :: vs)
    /\ hnsw_knn_query ix v k = Ok raw
    /\ collect_results raw th [] w = (Ok r, w')
    /\ results = sort_by_key r.
Proof.
  unfold find_similar_tickets, generate_embeddings, bind, getattr, raise,
    lift, ret.
  intros H.
  destruct (index (self w)) as [[ix|]|] eqn:Hix; try discriminate.
  destruct (resolved_tickets_data (self w)) as [[df|]|]; try discriminate.
  destruct (model_encode _) as [[|v vs]|e] eqn:Hv; try discriminate.
  cbn beta iota in H. rewrite Hix in H.
  destruct (hnsw_knn_query ix v k) as [raw|e] eqn:Hraw; try discriminate.
  destruct (collect_results raw th [] w) as [[r|e] w''] eqn:Hr;
    try discriminate.
  injection H as <- <-.
  exists ix, df, v, vs, raw, r. auto 10.
Qed.

Lemma find_similar_tickets_run (i c d : option string) (k : Z) (th : Q)
    (w : World) (ix : Index) (df : DataFrame) (v : Vector) (vs : list Vector)
    (raw : list (nat * Q)) :
  index (self w) = Some (Some ix) ->
  resolved_tickets_data (self w) = Some (Some df) ->
  model_encode [create_ticket_string i c d] = Ok (v :: vs) ->
  hnsw_knn_query ix v k = Ok raw ->
  find_similar_tickets i c d k th w
  = match collect_results raw th [] w with
    | (Ok r, w') => (Ok (sort_by_key r), w')
    | (Raise e, w') => (Raise e, w')
    end.
Proof.
  intros Hix Hdf Hv Hraw.
  unfold find_similar_tickets, generate_embeddings, bind, getattr, raise,
    lift, ret.
  rewrite Hix, Hdf, Hv. cbn beta iota. rewrite Hix, Hraw. reflexivity.
Qed.


(** The raw result [p] cannot be joined with the corpus: its slot has no
    identifier, or no row carries the identifier. *)
Lemma collect_results_raises (raw : list (nat * Q)) (th : Q)
    (acc : list Match) (w : World) (ids : list TicketId) (df : DataFrame)
    (p : nat * Q) :
  ticket_ids (self w) = Some ids ->
  resolved_tickets_data (self w) = Some (Some df) ->
  p ∈ above_threshold th raw ->
  match ids !! fst p with
  | None => True
  | Some t => rows_with_id df t = []
  end ->
  exists msg, collect_results raw th acc w = (Raise (IndexError msg), w).
Proof.
  intros Hids Hdf Hin Hbad. revert acc Hin.
  induction raw as [|[idx dist] raw IH]; intros acc Hin.
  - unfold above_threshold in Hin. rewrite filter_nil in Hin.
    apply not_elem_of_nil in Hin. contradiction.
  - unfold above_threshold in Hin. rewrite filter_cons in Hin. simpl in *.
    destruct (Qle_bool th (1 - dist)) eqn:Hth.
    + rewrite decide_True in Hin by reflexivity.
      unfold bind, getattr, raise. rewrite Hids.
      destruct (ids !! idx) as [t|] eqn:Ht; [|eauto].
      rewrite Hdf.
      destruct (rows_with_id df t) as [|row rest] eqn:Hrow; [eauto|].
      apply elem_of_cons in Hin as [->|Hin].
      * simpl in Hbad. rewrite Ht, Hrow in Hbad. discriminate.
      * apply IH, Hin.
    + rewrite decide_False in Hin by discriminate. apply IH, Hin.
Qed.

Lemma rows_with_id_absent (df : DataFrame) (t : TicketId) :
  (forall row, row ∈ df -> ticket_id_eqb (TicketID row) t = false) ->
  rows_with_id df t = [].
Proof.
  intros H. unfold rows_with_id. induction df as [|row df IH]; [reflexivity|].
  rewrite filter_cons, decide_False.
  - apply IH. intros r Hr. apply H. right. exact Hr.
  - rewrite (H row) by left. discriminate.
Qed.

Lemma ticket_id_eqb_eq (a b : TicketId) : ticket_id_eqb a b = true -> a = b.
Proof.
  destruct a as [|s], b as [|t]; simpl; try discriminate.
  intros H. apply bool_decide_eq_true in H. congruence.
Qed.

Lemma ticket_id_eqb_neq (a : TicketId) (s : string) :
  ticket_id_eqb a (Id s) = false -> a <> Id s.
Proof.
  intros H ->. simpl in H. apply bool_decide_eq_false in H. congruence.
Qed.

(** The head of [df[df['Ticket ID'] == t]] is the first row of [df] whose
    identifier is [t]. *)
Lemma rows_with_id_first (df : DataFrame) (t : TicketId) (row : Row)
    (rest : list Row) :
  rows_with_id df t = row :: rest ->
  exists n, first_row_with_id df t n row.
Proof.
  unfold first_row_with_id, rows_with_id.
  induction df as [|r df IH]; intros H.
  - rewrite filter_nil in H. discriminate.
  - rewrite filter_cons in H.
    destruct (ticket_id_eqb (TicketID r) t) eqn:E.
    + rewrite decide_True in H by reflexivity. injection H as -> _.
      exists 0%nat. split; [reflexivity|]. split; [apply ticket_id_eqb_eq, E|].
      intros n' row' Hlt. lia.
    + rewrite decide_False in H by discriminate.
      destruct (IH H) as [n [Hn [Hid Hfirst]]].
      exists (S n). split; [exact Hn|]. split; [exact Hid|].
      intros [|n'] row' Hlt Hrow'; simpl in Hrow'.
      * injection Hrow' as <-. subst t.
        assert (exists s, TicketID row = Id s) as [s Hs].
        { assert (Hmem : row ∈ filter (fun row0 =>
                    ticket_id_eqb (TicketID row0) (TicketID row) = true) df)
            by (rewrite H; left).
          apply list_elem_of_filter in Hmem as [Hm _].
          destruct (TicketID row) as [|s]; [discriminate Hm | eauto]. }
        rewrite Hs in E |- *. apply ticket_id_eqb_neq, E.
      * apply (Hfirst n' row'); [lia | exact Hrow'].
Qed.

(** The number of neighbours [k] goes to the index as it is: an error of
    [knn_query] is the error of the call. *)
Lemma find_similar_tickets_knn_raise (i c d : option string) (k : Z) (th : Q)
    (w : World) (ix : Index) (df : DataFrame) (v : Vector) (vs : list Vector)
    (e : exn) :
  index (self w) = Some (Some ix) ->
  resolved_tickets_data (self w) = Some (Some df) ->
  model_encode [create_ticket_string i c d] = Ok (v :: vs) ->
  hnsw_knn_query ix v k = Raise e ->
  find_similar_tickets i c d k th w = (Raise e, w).
Proof.
  intros Hix Hdf Hv Hraw.
  unfold find_similar_tickets, generate_embeddings, bind, getattr, raise,
    lift, ret.
  rewrite Hix, Hdf, Hv. cbn beta iota. rewrite Hix, Hraw. reflexivity.
Qed.

(** The call returns no more matches than the index returned raw results. *)
Lemma find_similar_tickets_length (i c d : option string) (k : Z) (th : Q)
    (w w' : World) (ix : Index) (df : DataFrame) (v : Vector)
    (vs : list Vector) (raw : list (nat * Q)) (results : list Match) :
  index (self w) = Some (Some ix) ->
  resolved_tickets_data (self w) = Some (Some df) ->
  model_encode [create_ticket_string i c d] = Ok (v :: vs) ->
  hnsw_knn_query ix v k = Ok raw ->
  find_similar_tickets i c d k th w = (Ok results, w') ->
  (length results <= length raw)%nat.
Proof.
  intros Hix Hdf Hv Hraw H.
  rewrite (find_similar_tickets_run _ _ _ _ _ _ _ _ _ _ _ Hix Hdf Hv Hraw)
    in H.
  destruct (collect_results raw th [] w) as [[r|e] w''] eqn:Hr;
    [|discriminate].
  injection H as <- <-.
  apply collect_results_ok in Hr as [ms [-> Hms]]. simpl.
  rewrite (Permutation_length (sort_by_key_perm ms)).
  rewrite <- (Forall2_length _ _ _ Hms). unfold above_threshold.
  apply length_filter.
Qed.

End QueryFacts.

(** ** Ranking: the claims on [find_similar_tickets] *)

Section Ranking.
Context `{B : Backend}.
Local Open Scope list_scope.

(** C1. The list returned by [find_similar_tickets] is ordered by resolved
    status first and similarity second, both descending: of two returned
    matches, the later one is never resolved when the earlier one is
    unresolved, and when both have the same resolved status the later one
    never has the strictly higher similarity. This holds whatever raw
    results the index returned. *)
Theorem find_similar_tickets_ranked (i c d : option string) (k : Z) (th : Q)
    (w w' : World) (results : list Match) :
  find_similar_tickets i c d k th w = (Ok results, w') ->
  forall (n1 n2 : nat) (a b : Match),
    (n1 < n2)%nat ->
    results !! n1 = Some a ->
    results !! n2 = Some b ->
    ~ (resolved a = false /\ resolved b = true)
    /\ (resolved a = resolved b ->
        ~ (similarity_score a < similarity_score b)%Q).
Proof.
  intros H n1 n2 a b Hlt Ha Hb.
  apply find_similar_tickets_ok in H
    as (ix & df & v & vs & raw & r & _ & _ & _ & _ & _ & ->).
  pose proof (StronglySorted_lookup before _ (sort_by_key_sorted r)
                n1 n2 a b Hlt Ha Hb) as Hab.
  unfold before, key_le, sort_key in Hab. simpl in Hab. split.
  - intros [Hra Hrb]. rewrite Hra, Hrb in Hab. simpl in Hab.
    destruct Hab as [Hab|[Hab _]]; lia.
  - intros Heq Hs. rewrite Heq in Hab.
    destruct Hab as [Hab|[_ Hab]]; [lia|].
    apply Qopp_lt_compat in Hs. apply Qle_not_lt in Hab. contradiction.
Qed.


(** The two lookups of the loop body raise [IndexError], each with its own
    message: the list of identifiers and the first row of the selection. *)
Lemma collect_results_raises_lookup (raw : list (nat * Q)) (th : Q)
    (acc : list Match) (w : World) (ids : list TicketId) (df : DataFrame)
    (p : nat * Q) :
  ticket_ids (self w) = Some ids ->
  resolved_tickets_data (self w) = Some (Some df) ->
  p ∈ above_threshold th raw ->
  match ids !! fst p with
  | None => True
  | Some t => rows_with_id df t = []
  end ->
  exists msg,
    collect_results raw th acc w = (Raise (IndexError msg), w)
    /\ (msg = "list index out of range"
        \/ msg = "single positional indexer is out-of-bounds").
Proof.
  intros Hids Hdf Hin Hbad. revert acc Hin.
  induction raw as [|[idx dist] raw IH]; intros acc Hin.
  - unfold above_threshold in Hin. rewrite filter_nil in Hin.
    apply not_elem_of_nil in Hin. contradiction.
  - unfold above_threshold in Hin. rewrite filter_cons in Hin. simpl in *.
    destruct (Qle_bool th (1 - dist)) eqn:Hth.
    + rewrite decide_True in Hin by reflexivity.
      unfold bind, getattr, raise. rewrite Hids.
      destruct (ids !! idx) as [t|] eqn:Ht; [|eauto].
      rewrite Hdf.
      destruct (rows_with_id df t) as [|row rest] eqn:Hrow; [eauto|].
      apply elem_of_cons in Hin as [->|Hin].
      * simpl in Hbad. rewrite Ht, Hrow in Hbad. discriminate.
      * apply IH, Hin.
    + rewrite decide_False in Hin by discriminate. apply IH, Hin.
Qed.

(** When the list of identifiers is the identifier column of the corpus, as
    the constructor leaves it, a slot within the list whose identifier
    matches no row is the slot of an empty identifier cell. *)
Lemma absent_identifier_is_nan (df : DataFrame) (idx : nat) (t : TicketId) :
  map TicketID df !! idx = Some t ->
  (forall row, row ∈ df -> ticket_id_eqb (TicketID row) t = false) ->
  t = NaN.
Proof.
  intros Ht Habs. rewrite list_lookup_fmap in Ht.
  destruct (df !! idx) as [row|] eqn:Hrow; [|discriminate].
  simpl in Ht. injection Ht as <-.
  assert (Hin : row ∈ df) by (eapply list_elem_of_lookup_2, Hrow).
  specialize (Habs row Hin).
  destruct (TicketID row) as [|s']; [reflexivity|].
  simpl in Habs. apply bool_decide_eq_false in Habs. congruence.
Qed.

(** C7 (as the code has it). When a raw result that passes the threshold
    has a slot whose identifier matches no row of the attached corpus, the
    query does not leave the match out: it raises Python's [IndexError],
    with the message of the list lookup or of the row lookup of the loop.
    There is no error of its own for a record that is not found. The
    instance and the file system are as before the call. *)
Theorem find_similar_tickets_record_not_found (i c d : option string) (k : Z)
    (th : Q) (w : World) (ix : Index) (df : DataFrame) (ids : list TicketId)
    (v : Vector) (vs : list Vector) (raw : list (nat * Q))
    (idx : nat) (dist : Q) (t : TicketId) :
  index (self w) = Some (Some ix) ->
  resolved_tickets_data (self w) = Some (Some df) ->
  ticket_ids (self w) = Some ids ->
  model_encode [create_ticket_string i c d] = Ok (v :: vs) ->
  hnsw_knn_query ix v k = Ok raw ->
  (idx, dist) ∈ raw ->
  (th <= 1 - dist)%Q ->
  ids !! idx = Some t ->
  (forall row, row ∈ df -> ticket_id_eqb (TicketID row) t = false) ->
  exists msg,
    find_similar_tickets i c d k th w = (Raise (IndexError msg), w)
    /\ (msg = "list index out of range"
        \/ msg = "single positional indexer is out-of-bounds").
Proof.
  intros Hix Hdf Hids Hv Hraw Hin Hth Ht Habs.
  rewrite (find_similar_tickets_run _ _ _ _ _ _ _ _ _ _ _ Hix Hdf Hv Hraw).
  destruct (collect_results_raises_lookup raw th [] w ids df (idx, dist)
              Hids Hdf) as (msg & Hmsg & Hwhich).
  - unfold above_threshold. apply list_elem_of_filter. split; [|exact Hin].
    apply Qle_bool_iff, Hth.
  - simpl. rewrite Ht. apply rows_with_id_absent, Habs.
  - exists msg. rewrite Hmsg. split; [reflexivity | exact Hwhich].
Qed.

(** C9. [find_similar_tickets] changes nothing: after the call, whatever
    its arguments and its outcome, the index, the list of ticket
    identifiers and the corpus table of the instance are the ones before
    the call, and so are all other attributes and the file system. *)
Theorem find_similar_tickets_mutates_nothing (i c d : option string) (k : Z)
    (th : Q) (w : World) :
  index (self (snd (find_similar_tickets i c d k th w))) = index (self w)
  /\ ticket_ids (self (snd (find_similar_tickets i c d k th w)))
     = ticket_ids (self w)
  /\ resolved_tickets_data (self (snd (find_similar_tickets i c d k th w)))
     = resolved_tickets_data (self w)
  /\ snd (find_similar_tickets i c d k th w) = w.
Proof. rewrite find_similar_tickets_state. auto. Qed.

(** C10. Every returned match carries the fields of the first row of the
    corpus, in corpus order, whose identifier is the identifier of the
    match: rows further down with the same identifier are never used. *)
Theorem find_similar_tickets_first_row (i c d : option string) (k : Z)
    (th : Q) (w w' : World) (results : list Match) :
  find_similar_tickets i c d k th w = (Ok results, w') ->
  exists df,
    resolved_tickets_data (self w) = Some (Some df)
    /\ forall m, m ∈ results ->
         exists n row,
           first_row_with_id df (ticket_id m) n row /\ snapshot_of row m.
Proof.
  intros H.
  apply find_similar_tickets_ok in H
    as (ix & df & v & vs & raw & r & _ & Hdf & _ & _ & Hr & ->).
  exists df. split; [exact Hdf|]. intros m Hm.
  rewrite sort_by_key_perm in Hm.
  apply collect_results_ok in Hr as [ms [-> Hms]]. simpl in Hm.
  apply list_elem_of_lookup in Hm as [n Hn].
  destruct (Forall2_lookup_r _ _ _ _ _ Hms Hn)
    as (p & _ & ids & df' & t & row & rest & _ & Hdf' & _ & Hrow & ->).
  rewrite Hdf in Hdf'. injection Hdf' as <-.
  destruct (rows_with_id_first df t row rest Hrow) as [n0 Hn0].
  exists n0, row. split; [exact Hn0|]. repeat split.
Qed.

End Ranking.

(** ** The lifecycle: construction, build and load *)

Section Lifecycle.
Context `{B : Backend}.
Local Open Scope list_scope.

Lemma falsy_false (s : string) : s <> "" -> falsy s = false.
Proof. intros H. unfold falsy. apply bool_decide_eq_false_2, H. Qed.

(** The load path of the constructor. *)
Lemma new_load (files : gmap string file) (p ip : string) (blob i' : Index)
    (df : DataFrame) :
  p <> "" -> ip <> "" ->
  files !! ip = Some (IndexFile blob) ->
  files !! p = Some (CsvFile df) ->
  hnsw_load_index (hnsw_Index 384) blob = Ok i' ->
  new p (Some ip) files
  = (Ok (mkSelf (Some (Some (hnsw_set_ef i' 50))) (Some (map TicketID df))
                (Some (Some df)) (Some 384%nat) (Some (Some ip)) (Some p)),
     files).
Proof.
  intros Hp Hip Hblob Hdf Hload.
  unfold new, __init__. rewrite (falsy_false p Hp), (falsy_false ip Hip).
  unfold load_index, load_resolved_tickets_data, on_index, read_file,
    read_csv, path_exists, bind, getattr, setattr, lift, raise, ret.
  repeat first
    [ rewrite Hdf | rewrite Hblob | rewrite Hload
    | rewrite bool_decide_eq_true_2 by eauto
    | progress run_world ].
  reflexivity.
Qed.

(** The build path of the constructor. *)
Lemma new_build (files : gmap string file) (p : string) (df : DataFrame)
    (embeddings : list Vector) (i1 i2 : Index) :
  p <> "" ->
  files !! p = Some (CsvFile df) ->
  model_encode
    (map (fun row =>
            create_ticket_string (Issue row) (Category row) (Description row))
         df) = Ok embeddings ->
  hnsw_init_index (hnsw_Index 384) (length embeddings) 200 16 = Ok i1 ->
  hnsw_add_items i1 embeddings (seq 0 (length embeddings)) = Ok i2 ->
  new p None files
  = (Ok (mkSelf (Some (Some (hnsw_set_ef i2 50))) (Some (map TicketID df))
                (Some (Some df)) (Some 384%nat) (Some None) (Some p)),
     <["ticket_index.bin" := IndexFile (hnsw_set_ef i2 50)]> files).
Proof.
  intros Hp Hdf Henc Hinit Hadd.
  unfold new, __init__. rewrite (falsy_false p Hp).
  unfold build_index_from_csv, generate_embeddings_list, save_index, on_index,
    write_file, read_csv, path_exists, bind, getattr, setattr, lift, raise,
    ret.
  repeat first
    [ rewrite Hdf | rewrite Henc | rewrite Hinit | rewrite Hadd
    | rewrite bool_decide_eq_true_2 by eauto
    | progress run_world ].
  reflexivity.
Qed.

(** The guard of [find_similar_tickets] on an instance whose attributes
    exist and whose index is [None]. *)
Lemma find_similar_tickets_index_none (i c d : option string) (k : Z) (th : Q)
    (w : World) :
  index (self w) = Some None ->
  find_similar_tickets i c d k th w
  = (Raise (ValueError "Index has not been built yet"), w).
Proof.
  intros H. unfold find_similar_tickets, bind, getattr, raise.
  rewrite H. reflexivity.
Qed.

Lemma find_similar_tickets_data_none (i c d : option string) (k : Z) (th : Q)
    (w : World) (ix : Index) :
  index (self w) = Some (Some ix) ->
  resolved_tickets_data (self w) = Some None ->
  find_similar_tickets i c d k th w
  = (Raise (ValueError "Resolved tickets data has not been loaded yet"), w).
Proof.
  intros H H'. unfold find_similar_tickets, bind, getattr, raise.
  rewrite H, H'. reflexivity.
Qed.

(** An instance handed out by the constructor either comes from the early
    return on an empty data path, with no attribute at all, or has an index
    and a corpus table. *)
Lemma new_ready (files files' : gmap string file) (p : string)
    (ip : option string) (s : TicketMatchingSystem) :
  new p ip files = (Ok s, files') ->
  (p = "" /\ s = bare /\ files' = files)
  \/ exists ix df,
      index s = Some (Some ix)
      /\ resolved_tickets_data s = Some (Some df)
      /\ ticket_ids s = Some (map TicketID df).
Proof.
  unfold new, __init__, falsy. intros H.
  destruct (bool_decide (p = "")) eqn:Hp.
  - apply bool_decide_eq_true in Hp. left. unfold ret in H.
    injection H as <- <-. auto.
  - right.
    unfold build_index_from_csv, load_index, load_resolved_tickets_data,
      generate_embeddings_list, save_index, on_index, write_file, read_file,
      read_csv, path_exists, falsy, bind, getattr, setattr, lift, raise, ret
      in H.
    case_run H; injection H as <- <-; run_world; eauto.
Qed.

(** A build that raises has written no file. *)
Lemma build_index_from_csv_raise (csv_path save_path : string) (w w' : World)
    (e : exn) :
  build_index_from_csv csv_path save_path w = (Raise e, w') ->
  fs w' = fs w.
Proof.
  unfold build_index_from_csv, generate_embeddings_list, save_index, on_index,
    write_file, read_csv, bind, getattr, setattr, lift, raise, ret.
  intros H. case_run H; injection H as _ <-; reflexivity.
Qed.

End Lifecycle.

Section LifecycleClaims.
Context `{B : Backend}.
Local Open Scope list_scope.

(** C3 (as the code has it). At build time the vectors are added under the
    labels [0 .. n-1] in corpus row order and the list of identifiers is the
    identifier column of the corpus, so slot [i] stands for row [i]; the
    index in memory is the one written to the index file. On load the index
    is the one read from the index file and the list of identifiers is read
    again from the corpus file given to the constructor, in row order.
    Loading succeeds as soon as both files can be read: the size and the
    order of the corpus are not compared with the index. *)
Theorem slot_mapping_follows_corpus_rows
    (files : gmap string file) (p : string) (df : DataFrame)
    (embeddings : list Vector) (i1 i2 : Index)
    (files2 : gmap string file) (p2 ip : string) (df2 : DataFrame)
    (blob i3 : Index) :
  p <> "" ->
  files !! p = Some (CsvFile df) ->
  model_encode
    (map (fun row =>
            create_ticket_string (Issue row) (Category row) (Description row))
         df) = Ok embeddings ->
  hnsw_init_index (hnsw_Index 384) (length embeddings) 200 16 = Ok i1 ->
  hnsw_add_items i1 embeddings (seq 0 (length embeddings)) = Ok i2 ->
  p2 <> "" -> ip <> "" ->
  files2 !! ip = Some (IndexFile blob) ->
  files2 !! p2 = Some (CsvFile df2) ->
  hnsw_load_index (hnsw_Index 384) blob = Ok i3 ->
  (exists s,
      new p None files
      = (Ok s, <["ticket_index.bin" := IndexFile (hnsw_set_ef i2 50)]> files)
      /\ index s = Some (Some (hnsw_set_ef i2 50))
      /\ ticket_ids s = Some (map TicketID df)
      /\ resolved_tickets_data s = Some (Some df))
  /\ (exists s,
         new p2 (Some ip) files2 = (Ok s, files2)
         /\ index s = Some (Some (hnsw_set_ef i3 50))
         /\ ticket_ids s = Some (map TicketID df2)
         /\ resolved_tickets_data s = Some (Some df2)).
Proof.
  intros Hp Hdf Henc Hinit Hadd Hp2 Hip Hblob Hdf2 Hload. split.
  - eexists. split; [apply (new_build files p df embeddings i1 i2); assumption|].
    auto.
  - eexists. split; [apply (new_load files2 p2 ip blob i3 df2); assumption|].
    auto.
Qed.

(** C6 (the failing input). The constructor called with an empty data path
    returns an object without any attribute; [find_similar_tickets] on that
    object stops at its first line with [AttributeError], before the guard
    that raises [ValueError "Index has not been built yet"]. *)
Theorem find_similar_tickets_before_ready (files : gmap string file)
    (ip : option string) (i c d : option string) (k : Z) (th : Q) :
  new "" ip files = (Ok bare, files)
  /\ find_similar_tickets i c d k th (mkWorld bare files)
     = (Raise (AttributeError "index"), mkWorld bare files).
Proof. split; reflexivity. Qed.

End LifecycleClaims.

(** ** The claims on concrete corpora *)

Module Concrete.
Import Toy Examples.
Local Open Scope list_scope.

(** The build path of the constructor on the four-row corpus. *)
Example new_on_corpus : new csv_path None files0 = (Ok (self ready), fs ready).
Proof.
  apply (new_build files0 csv_path corpus [27%Z; 24%Z; 38%Z; 65%Z]
           (mkToy 384 4 [] 10)
           (mkToy 384 4
              [(0%nat, 27%Z); (1%nat, 24%Z); (2%nat, 38%Z); (3%nat, 65%Z)] 10));
    first [discriminate | reflexivity | (vm_compute; reflexivity)].
Qed.

(** The two other instances used below are what the constructor builds
    from their corpora. *)
Example new_on_corpus_dup :
  new csv_path None {[ csv_path := CsvFile corpus_dup ]}
  = (Ok (self ready_dup), fs ready_dup).
Proof.
  apply (new_build (B := backend)
           {[ csv_path := CsvFile corpus_dup ]} csv_path corpus_dup
           [24%Z; 30%Z] (mkToy 384 2 [] 10)
           (mkToy 384 2 [(0%nat, 24%Z); (1%nat, 30%Z)] 10));
    first [discriminate | reflexivity | (vm_compute; reflexivity)].
Qed.

Example new_on_corpus_nan :
  new csv_path None {[ csv_path := CsvFile corpus_nan ]}
  = (Ok (self ready_nan), fs ready_nan).
Proof.
  apply (new_build (B := backend)
           {[ csv_path := CsvFile corpus_nan ]} csv_path corpus_nan
           [27%Z; 24%Z] (mkToy 384 2 [] 10)
           (mkToy 384 2 [(0%nat, 27%Z); (1%nat, 24%Z)] 10));
    first [discriminate | reflexivity | (vm_compute; reflexivity)].
Qed.

(** The end-to-end scenario: the resolved ticket comes first, the ticket on
    the threshold is kept, the ticket below it is left out. *)
Example find_similar_on_corpus :
  find_similar_tickets (Some "Printer WiFi issue!") (Some "Hardware") None
    4 0.5 ready
  = (Ok ranked, ready).
Proof. apply find_similar_tickets_eq. vm_compute. reflexivity. Qed.

(** Asking for more neighbours than the index holds: this backend raises. *)
Example find_similar_k_too_large :
  find_similar_tickets (Some "Printer WiFi issue!") (Some "Hardware") None
    5 0.5 ready
  = (Raise (RuntimeError "Cannot return the results"), ready).
Proof. apply find_similar_tickets_eq. vm_compute. reflexivity. Qed.

(** C1 on the four-row corpus: the resolved [T2] precedes the closer but
    unresolved [T1], and [T1] precedes the less similar [T3]. *)
Lemma find_similar_tickets_ranked_witness :
  find_similar_tickets (Some "Printer WiFi issue!") (Some "Hardware") None
    4 0.5 ready = (Ok ranked, ready)
  /\ ~ (resolved match_T2 = false /\ resolved match_T1 = true)
  /\ (resolved match_T1 = resolved match_T3 ->
      ~ (similarity_score match_T1 < similarity_score match_T3)%Q).
Proof.
  assert (H : find_similar_tickets (Some "Printer WiFi issue!")
                (Some "Hardware") None 4 0.5 ready = (Ok ranked, ready))
    by (apply find_similar_tickets_eq; vm_compute; reflexivity).
  split; [exact H|]. split.
  - apply (find_similar_tickets_ranked _ _ _ _ _ _ _ _ H 0 1
             match_T2 match_T1); [lia | reflexivity | reflexivity].
  - apply (find_similar_tickets_ranked _ _ _ _ _ _ _ _ H 1 2
             match_T1 match_T3); [lia | reflexivity | reflexivity].
Defined.


(** C7 on the corpus with an empty identifier cell: the closest slot has an
    identifier that no row matches, and the query raises. *)
Lemma find_similar_tickets_record_not_found_witness :
  index (self ready_nan)
  = Some (Some (mkToy 384 2 [(0%nat, 27%Z); (1%nat, 24%Z)] 50))
  /\ (0%nat, 1 # 11)%Q ∈ [(0%nat, 1 # 11); (1%nat, 4 # 14)]%Q
  /\ (0.5 <= 1 - (1 # 11))%Q
  /\ (forall row, row ∈ corpus_nan -> ticket_id_eqb (TicketID row) NaN = false)
  /\ exists msg,
      find_similar_tickets (Some "Printer WiFi issue!") (Some "Hardware") None
        2 0.5 ready_nan
      = (Raise (IndexError msg), ready_nan)
      /\ (msg = "list index out of range"
          \/ msg = "single positional indexer is out-of-bounds").
Proof.
  assert (Hmem : (0%nat, 1 # 11)%Q ∈ [(0%nat, 1 # 11); (1%nat, 4 # 14)]%Q)
    by left.
  assert (Hle : (0.5 <= 1 - (1 # 11))%Q) by (unfold Qle; simpl; lia).
  assert (Habs : forall row, row ∈ corpus_nan ->
                             ticket_id_eqb (TicketID row) NaN = false).
  { intros row _. destruct (TicketID row); reflexivity. }
  split; [reflexivity|]. repeat (split; [assumption|]).
  apply (find_similar_tickets_record_not_found
           (Some "Printer WiFi issue!") (Some "Hardware") None 2 0.5 ready_nan
           (mkToy 384 2 [(0%nat, 27%Z); (1%nat, 24%Z)] 50) corpus_nan
           [NaN; Id "T2"] 28%Z [] [(0%nat, 1 # 11); (1%nat, 4 # 14)]%Q
           0%nat (1 # 11)%Q NaN);
    first [reflexivity | assumption | (vm_compute; reflexivity)].
Defined.

(** C10 on the corpus with a repeated identifier: both slots yield the
    fields of the first of the two rows. *)
Lemma find_similar_tickets_first_row_witness :
  find_similar_tickets (Some "Printer is offline") (Some "Hardware") None
    2 0.5 ready_dup = (Ok ranked_dup, ready_dup)
  /\ exists df,
      resolved_tickets_data (self ready_dup) = Some (Some df)
      /\ forall m, m ∈ ranked_dup ->
           exists n row,
             first_row_with_id df (ticket_id m) n row /\ snapshot_of row m.
Proof.
  assert (H : find_similar_tickets (Some "Printer is offline")
                (Some "Hardware") None 2 0.5 ready_dup
              = (Ok ranked_dup, ready_dup))
    by (apply find_similar_tickets_eq; vm_compute; reflexivity).
  split; [exact H|].
  apply (find_similar_tickets_first_row _ _ _ _ _ _ _ _ H).
Defined.

(** C3 on the four-row corpus: a build, then a load of the files that the
    build left. *)
Lemma slot_mapping_follows_corpus_rows_witness :
  files0 !! csv_path = Some (CsvFile corpus)
  /\ fs ready !! "ticket_index.bin" = Some (IndexFile built_index)
  /\ fs ready !! csv_path = Some (CsvFile corpus)
  /\ (exists s,
         new csv_path None files0
         = (Ok s,
            <["ticket_index.bin" := IndexFile built_index]> files0)
         /\ index s = Some (Some built_index)
         /\ ticket_ids s = Some (map TicketID corpus)
         /\ resolved_tickets_data s = Some (Some corpus))
  /\ (exists s,
         new csv_path (Some "ticket_index.bin") (fs ready) = (Ok s, fs ready)
         /\ index s = Some (Some built_index)
         /\ ticket_ids s = Some (map TicketID corpus)
         /\ resolved_tickets_data s = Some (Some corpus)).
Proof.
  assert (H1 : files0 !! csv_path = Some (CsvFile corpus))
    by (vm_compute; reflexivity).
  assert (H2 : fs ready !! "ticket_index.bin" = Some (IndexFile built_index))
    by (vm_compute; reflexivity).
  assert (H3 : fs ready !! csv_path = Some (CsvFile corpus))
    by (vm_compute; reflexivity).
  repeat (split; [assumption|]).
  apply (slot_mapping_follows_corpus_rows
           files0 csv_path corpus [27%Z; 24%Z; 38%Z; 65%Z]
           (mkToy 384 4 [] 10)
           (mkToy 384 4
              [(0%nat, 27%Z); (1%nat, 24%Z); (2%nat, 38%Z); (3%nat, 65%Z)] 10)
           (fs ready) csv_path "ticket_index.bin" corpus
           built_index built_index);
    first [assumption | discriminate | reflexivity].
Defined.

(** C3, as stated, fails: an index file that holds four vectors is loaded
    next to a corpus of one row, and the constructor returns normally. *)
Lemma load_accepts_mismatched_corpus :
  exists s ix ids,
    new csv_path (Some "ticket_index.bin") files_mismatch
    = (Ok s, files_mismatch)
    /\ index s = Some (Some ix)
    /\ ticket_ids s = Some ids
    /\ hnsw_get_current_count ix = 4%nat
    /\ length ids = 1%nat.
Proof.
  eexists _, built_index, [Id "T9"]. split.
  - apply (new_load files_mismatch csv_path "ticket_index.bin"
                    built_index built_index);
      first [discriminate | reflexivity | (vm_compute; reflexivity)].
  - repeat split.
Qed.

End Concrete.

(** * Further properties of the matching system *)

(** ** The normaliser and surrounding whitespace *)

Section NormalizerMore.

Lemma lstrip_all_space (r : string) : all_space r = true -> lstrip r = "".
Proof.
  induction r as [|a r IH]; simpl; [reflexivity|].
  intros H. apply andb_true_iff in H as [Ha Hr]. rewrite Ha. apply IH, Hr.
Qed.

Lemma rstrip_all_space (r : string) : all_space r = true -> rstrip r = "".
Proof.
  induction r as [|a r IH]; simpl; [reflexivity|].
  intros H. apply andb_true_iff in H as [Ha Hr]. rewrite (IH Hr), Ha.
  reflexivity.
Qed.

Lemma lstrip_app_space_l (l s : string) :
  all_space l = true -> lstrip (l +:+ s) = lstrip s.
Proof.
  induction l as [|a l IH]; [reflexivity|].
  intros H. simpl in H. apply andb_true_iff in H as [Ha Hl].
  rewrite append_cons. simpl. rewrite Ha. apply IH, Hl.
Qed.

Lemma rstrip_app_space_r (s r : string) :
  all_space r = true -> rstrip (s +:+ r) = rstrip s.
Proof.
  intros Hr. induction s as [|a s IH].
  - rewrite append_nil_l. apply rstrip_all_space, Hr.
  - rewrite append_cons. simpl. rewrite IH. reflexivity.
Qed.

Lemma strip_app_space_l (l s : string) :
  all_space l = true -> strip (l +:+ s) = strip s.
Proof. intros H. unfold strip. rewrite lstrip_app_space_l by exact H. reflexivity. Qed.

Lemma strip_app_space_r (s r : string) :
  all_space r = true -> strip (s +:+ r) = strip s.
Proof.
  intros Hr. unfold strip. induction s as [|a s IH].
  - rewrite append_nil_l, (lstrip_all_space r Hr). reflexivity.
  - rewrite append_cons. simpl. destruct (is_space a); [exact IH|].
    rewrite <- append_cons. apply rstrip_app_space_r, Hr.
Qed.

Lemma lstrip_fixed (s : string) : starts_with_space s = false -> lstrip s = s.
Proof. destruct s as [|a s]; simpl; [reflexivity|]. intros ->. reflexivity. Qed.

Lemma rstrip_fixed (s : string) : ends_with_space s = false -> rstrip s = s.
Proof.
  induction s as [|a s IH]; [reflexivity|].
  destruct s as [|b s].
  - simpl. intros ->. reflexivity.
  - intros H. change (ends_with_space (String b s) = false) in H.
    change (rstrip (String a (String b s)))
      with (match rstrip (String b s) with
            | EmptyString =>
                if is_space a then EmptyString else String a EmptyString
            | r => String a r
            end).
    rewrite (IH H). reflexivity.
Qed.

Lemma strip_idempotent (s : string) : strip (strip s) = strip s.
Proof.
  destruct (strip_trimmed s) as [Hl Hr].
  unfold strip at 1. rewrite (lstrip_fixed _ Hl). apply rstrip_fixed, Hr.
Qed.

(** X1. Whitespace in front of the issue and behind the description does
    not change the ticket string. *)
Theorem create_ticket_string_outer_whitespace (l a d r : string)
    (c : option string) :
  all_space l = true ->
  all_space r = true ->
  create_ticket_string (Some (l +:+ a)) c (Some (d +:+ r))
  = create_ticket_string (Some a) c (Some d).
Proof.
  intros Hl Hr. unfold create_ticket_string. simpl.
  rewrite append_assoc, (strip_app_space_l _ _ Hl).
  rewrite <- (strip_app_space_r
                (a +:+ " " +:+ na_to_empty c +:+ " " +:+ d) r Hr).
  rewrite !append_assoc. reflexivity.
Qed.

(** X2. A ticket string is already normal: used as the only field of a new
    ticket, it gives itself. *)
Theorem create_ticket_string_idempotent (i c d : option string) :
  create_ticket_string (Some (create_ticket_string i c d)) None None
  = create_ticket_string i c d.
Proof.
  unfold create_ticket_string at 1. simpl.
  rewrite (strip_app_space_r _ "  ") by reflexivity.
  unfold create_ticket_string. apply strip_idempotent.
Qed.

End NormalizerMore.

(** ** The constructor: what it returns *)

Section ConstructorMore.
Context `{B : Backend}.
Local Open Scope list_scope.

Ltac unfold_methods_in H :=
  unfold new, __init__, build_index_from_csv, load_index,
    load_resolved_tickets_data, generate_embeddings_list, save_index,
    on_index, write_file, read_file, read_csv, path_exists, bind, getattr,
    setattr, lift, raise, ret in H.


(** X7. What the constructor hands out: either the object without
    attributes of the early return (empty data path), or an instance whose
    corpus table is the content of the data file, whose list of identifiers
    is the identifier column of that table, row by row, and which has an
    index and the dimension 384. *)
Theorem new_returns_bare_or_ready (files files' : gmap string file)
    (p : string) (ip : option string) (s : TicketMatchingSystem) :
  new p ip files = (Ok s, files') ->
  (p = "" /\ s = bare /\ files' = files)
  \/ exists ix df,
      files !! p = Some (CsvFile df)
      /\ index s = Some (Some ix)
      /\ resolved_tickets_data s = Some (Some df)
      /\ ticket_ids s = Some (map TicketID df)
      /\ dim s = Some 384%nat
      /\ index_path s = Some ip
      /\ resolved_tickets_data_path s = Some p.
Proof.
  unfold new, __init__, falsy. intros H.
  destruct (bool_decide (p = "")) eqn:Hp.
  - apply bool_decide_eq_true in Hp. left. unfold ret in H.
    injection H as <- <-. auto.
  - right. unfold_methods_in H. unfold falsy in H.
    case_run H; injection H as <- <-; run_world; eauto 10.
Qed.

End ConstructorMore.

(** ** The query: bounds, errors of the collaborators, order of ties *)

Section QueryMore.
Context `{B : Backend}.
Local Open Scope list_scope.

(** X9. A raw result that passes the threshold and names a slot beyond the
    list of identifiers makes the query raise [IndexError]; the instance and
    the files are unchanged. *)
Theorem find_similar_tickets_slot_out_of_range (i c d : option string)
    (k : Z) (th : Q) (w : World) (ix : Index) (df : DataFrame)
    (ids : list TicketId) (v : Vector) (vs : list Vector)
    (raw : list (nat * Q)) (idx : nat) (dist : Q) :
  index (self w) = Some (Some ix) ->
  resolved_tickets_data (self w) = Some (Some df) ->
  ticket_ids (self w) = Some ids ->
  model_encode [create_ticket_string i c d] = Ok (v :: vs) ->
  hnsw_knn_query ix v k = Ok raw ->
  (idx, dist) ∈ raw ->
  (th <= 1 - dist)%Q ->
  (length ids <= idx)%nat ->
  exists msg,
    find_similar_tickets i c d k th w = (Raise (IndexError msg), w).
Proof.
  intros Hix Hdf Hids Hv Hknn Hin Hth Hlen.
  rewrite (find_similar_tickets_run _ _ _ _ _ _ _ _ _ _ _ Hix Hdf Hv Hknn).
  destruct (collect_results_raises raw th [] w ids df (idx, dist) Hids Hdf)
    as [msg Hmsg].
  - unfold above_threshold. apply list_elem_of_filter. split; [|exact Hin].
    apply Qle_bool_iff, Hth.
  - simpl. rewrite (lookup_ge_None_2 ids idx Hlen). exact I.
  - exists msg. rewrite Hmsg. reflexivity.
Qed.

(** X10. On an instance with an index and a corpus, an error of the
    embedding model or of the index query is the error of the call, and a
    model that returns no vector makes the call raise [IndexError]; in each
    case the instance and the files are unchanged. *)
Theorem find_similar_tickets_collaborator_errors (i c d : option string)
    (k : Z) (th : Q) (w : World) (ix : Index) (df : DataFrame) :
  index (self w) = Some (Some ix) ->
  resolved_tickets_data (self w) = Some (Some df) ->
  (forall e, model_encode [create_ticket_string i c d] = Raise e ->
             find_similar_tickets i c d k th w = (Raise e, w))
  /\ (model_encode [create_ticket_string i c d] = Ok [] ->
      exists msg,
        find_similar_tickets i c d k th w = (Raise (IndexError msg), w))
  /\ (forall v vs e,
         model_encode [create_ticket_string i c d] = Ok (v :: vs) ->
         hnsw_knn_query ix v k = Raise e ->
         find_similar_tickets i c d k th w = (Raise e, w)).
Proof.
  intros Hix Hdf. repeat split.
  - intros e He.
    unfold find_similar_tickets, generate_embeddings, bind, getattr, raise,
      lift, ret.
    rewrite Hix, Hdf, He. reflexivity.
  - intros He. eexists.
    unfold find_similar_tickets, generate_embeddings, bind, getattr, raise,
      lift, ret.
    rewrite Hix, Hdf, He. reflexivity.
  - intros v vs e Hv Hknn.
    apply (find_similar_tickets_knn_raise i c d k th w ix df v vs e);
      assumption.
Qed.

End QueryMore.

(** ** The query: ties and the threshold *)

Section SortMore.

Lemma insert_by_key_front (x : Match) (l : list Match) :
  Forall (before x) l -> insert_by_key x l = x :: l.
Proof.
  destruct l as [|y l]; [reflexivity|]. intros H.
  apply Forall_cons in H as [Hy _]. simpl.
  apply key_ltb_false in Hy. rewrite Hy. reflexivity.
Qed.

Lemma insert_by_key_filter_sorted (P : Match -> bool) (x : Match)
    (l : list Match) :
  StronglySorted before l ->
  filter (fun m => P m = true) (insert_by_key x l)
  = if P x then insert_by_key x (filter (fun m => P m = true) l)
    else filter (fun m => P m = true) l.
Proof.
  induction 1 as [|y l Hl IH Hy].
  - simpl. rewrite filter_cons, filter_nil.
    destruct (P x) eqn:Px.
    + rewrite decide_True by reflexivity. reflexivity.
    + rewrite decide_False by discriminate. reflexivity.
  - simpl. destruct (key_ltb (sort_key y) (sort_key x)) eqn:Hlt.
    + rewrite !filter_cons, IH.
      destruct (P y) eqn:Py.
      * rewrite decide_True by reflexivity.
        destruct (P x); [|reflexivity]. simpl. rewrite Hlt. reflexivity.
      * rewrite decide_False by discriminate. reflexivity.
    + rewrite (filter_cons _ x).
      destruct (P x) eqn:Px.
      * rewrite decide_True by reflexivity.
        rewrite insert_by_key_front; [reflexivity|].
        apply key_ltb_false in Hlt.
        apply Forall_forall. intros z Hz.
        apply list_elem_of_filter in Hz as [_ Hz].
        apply elem_of_cons in Hz as [->|Hz]; [exact Hlt|].
        rewrite Forall_forall in Hy.
        eapply key_le_trans; [exact Hlt | apply Hy, Hz].
      * rewrite decide_False by discriminate. reflexivity.
Qed.

Lemma sort_by_key_filter (P : Match -> bool) (l : list Match) :
  sort_by_key (filter (fun m => P m = true) l)
  = filter (fun m => P m = true) (sort_by_key l).
Proof.
  induction l as [|x l IH]; [reflexivity|].
  simpl. rewrite insert_by_key_filter_sorted by apply sort_by_key_sorted.
  rewrite filter_cons. destruct (P x) eqn:Px.
  - rewrite decide_True by reflexivity. simpl. rewrite IH. reflexivity.
  - rewrite decide_False by discriminate. exact IH.
Qed.

End SortMore.

Section ThresholdMore.
Context `{B : Backend}.
Local Open Scope list_scope.

(** X11. Matches with the same resolved status and the same similarity are
    returned in the order in which the index returned their raw results:
    for every key, the returned matches of that key are the matches of that
    key as the loop built them, in raw order. *)
Theorem find_similar_tickets_keeps_tie_order (i c d : option string) (k : Z)
    (th : Q) (w w' : World) (ix : Index) (df : DataFrame) (v : Vector)
    (vs : list Vector) (raw : list (nat * Q)) (results : list Match) :
  index (self w) = Some (Some ix) ->
  resolved_tickets_data (self w) = Some (Some df) ->
  model_encode [create_ticket_string i c d] = Ok (v :: vs) ->
  hnsw_knn_query ix v k = Ok raw ->
  find_similar_tickets i c d k th w = (Ok results, w') ->
  exists ms,
    Forall2 (match_of (self w)) (above_threshold th raw) ms
    /\ forall key,
        filter (fun m => same_key (sort_key m) key = true) results
        = filter (fun m => same_key (sort_key m) key = true) ms.
Proof.
  intros Hix Hdf Hv Hknn H.
  rewrite (find_similar_tickets_run _ _ _ _ _ _ _ _ _ _ _ Hix Hdf Hv Hknn)
    in H.
  destruct (collect_results raw th [] w) as [[r|e] w''] eqn:Hr;
    [|discriminate].
  injection H as <- <-.
  apply collect_results_ok in Hr as [ms [-> Hms]]. simpl.
  exists ms. split; [exact Hms|].
  intros key. apply sort_by_key_stable.
Qed.

Lemma collect_results_raise_threshold (raw : list (nat * Q)) (th1 th2 : Q)
    (acc1 res1 : list Match) (w w1 : World) :
  (th1 <= th2)%Q ->
  collect_results raw th1 acc1 w = (Ok res1, w1) ->
  exists ms1,
    res1 = acc1 ++ ms1
    /\ forall acc2,
        collect_results raw th2 acc2 w
        = (Ok (acc2 ++ filter (fun m => Qle_bool th2 (similarity_score m)
                                         = true) ms1), w).
Proof.
  intros Hle. revert acc1.
  induction raw as [|[idx dist] raw IH]; intros acc1 H.
  - injection H as <- _. exists []. rewrite app_nil_r. split; [reflexivity|].
    intros acc2. rewrite filter_nil, app_nil_r. reflexivity.
  - simpl in H.
    destruct (Qle_bool th1 (1 - dist)) eqn:H1.
    + unfold bind, getattr, raise in H.
      destruct (ticket_ids (self w)) as [ids|] eqn:Hids; [|discriminate].
      destruct (ids !! idx) as [t|] eqn:Ht; [|discriminate].
      destruct (resolved_tickets_data (self w)) as [[df|]|] eqn:Hdf;
        try discriminate.
      destruct (rows_with_id df t) as [|row rest] eqn:Hrow; [discriminate|].
      apply IH in H as [ms1 [-> Hms1]].
      exists (make_match t (1 - dist) row :: ms1).
      rewrite <- app_assoc. split; [reflexivity|].
      intros acc2. rewrite filter_cons. simpl.
      destruct (Qle_bool th2 (1 - dist)) eqn:H2.
      * rewrite decide_True by reflexivity.
        unfold bind, getattr, raise. rewrite Hids, Ht, Hdf, Hrow.
        rewrite Hms1, <- app_assoc. reflexivity.
      * rewrite decide_False by discriminate. apply Hms1.
    + assert (H2 : Qle_bool th2 (1 - dist) = false).
      { apply not_true_iff_false. rewrite Qle_bool_iff. intros H2.
        apply not_true_iff_false in H1. apply H1, Qle_bool_iff.
        eapply Qle_trans; eassumption. }
      apply IH in H as [ms1 [-> Hms1]]. exists ms1. split; [reflexivity|].
      intros acc2. simpl. rewrite H2. apply Hms1.
Qed.

(** X12. Raising the threshold only removes matches: when a query returns
    normally, the same query with a higher threshold returns the matches of
    at least that similarity, in the same order, and raises nothing. *)
Theorem find_similar_tickets_raise_threshold (i c d : option string) (k : Z)
    (th1 th2 : Q) (w w' : World) (results : list Match) :
  (th1 <= th2)%Q ->
  find_similar_tickets i c d k th1 w = (Ok results, w') ->
  find_similar_tickets i c d k th2 w
  = (Ok (filter (fun m => Qle_bool th2 (similarity_score m) = true) results),
     w).
Proof.
  intros Hle H.
  apply find_similar_tickets_ok in H
    as (ix & df & v & vs & raw & r & Hix & Hdf & Hv & Hknn & Hr & ->).
  rewrite (find_similar_tickets_run _ _ _ _ _ _ _ _ _ _ _ Hix Hdf Hv Hknn).
  destruct (collect_results_raise_threshold raw th1 th2 [] r w w' Hle Hr)
    as [ms1 [-> Hms1]].
  rewrite (Hms1 []). simpl.
  rewrite (sort_by_key_filter
             (fun m => Qle_bool th2 (similarity_score m)) ms1).
  reflexivity.
Qed.

End ThresholdMore.

(** * Properties of the resolution system *)

Section ResolutionFacts.
Import Resolution.
Context `{P : Provider}.
Local Open Scope list_scope.

Lemma filter_resolved_serializable (l : list Match) :
  filter (fun ticket => s_resolved ticket = true) (map serializable l)
  = map serializable (filter (fun m => resolved m = true) l).
Proof.
  induction l as [|m l IH]; [reflexivity|].
  simpl. rewrite !filter_cons. simpl.
  destruct (resolved m) eqn:Hm.
  - rewrite !decide_True by reflexivity. simpl. rewrite IH. reflexivity.
  - rewrite !decide_False by discriminate. exact IH.
Qed.

(** The prompt chosen by [generate_response] for a list of tickets that is
    not empty. *)
Lemma generate_response_evidence (nt : NewTicket) (l : list Match)
    (log : list ChatRequest) :
  l <> [] ->
  generate_response nt l log
  = r_bind
      (call_client
         (evidence_request nt
            (match filter (fun m => resolved m = true) l with
             | _ :: _ =>
                 _craft_prompt_for_resolved_tickets nt
                   (map serializable (filter (fun m => resolved m = true) l))
             | [] =>
                 _craft_prompt_for_unresolved_tickets nt (map serializable l)
             end)))
      (fun response => first_content response) log.
Proof.
  intros Hl. destruct l as [|m l]; [congruence|].
  unfold generate_response. rewrite filter_resolved_serializable.
  destruct (filter (fun m0 => resolved m0 = true) (m :: l)); reflexivity.
Qed.

(** X13. Every call of [generate_response] sends exactly one request to
    the client, whatever the client answers: a system message followed by a
    user message, with at most 50 tokens, temperature 0.1 and top_p 0.1 when
    there is no ticket, and at most 1024 tokens, temperature 0.3 and top_p
    0.95 otherwise. *)
Theorem generate_response_one_request (nt : NewTicket) (l : list Match)
    (log : list ChatRequest) :
  exists request,
    snd (generate_response nt l log) = log ++ [request]
    /\ map role (messages request) = ["system"; "user"]
    /\ (max_tokens request, temperature request, top_p request)
       = match l with
         | [] => (50%nat, 0.1%Q, 0.1%Q)
         | _ :: _ => (1024%nat, 0.3%Q, 0.95%Q)
         end.
Proof.
  destruct l as [|m l].
  - exists (no_evidence_request nt).
    unfold generate_response, r_bind, call_client, first_content.
    destruct (chat_completion _) as [[|c cs]|e]; repeat split.
  - eexists (evidence_request nt _).
    unfold generate_response, r_bind, call_client, first_content.
    destruct (chat_completion _) as [[|c cs]|e]; repeat split.
Qed.

(** X14. What a normal return of [generate_response] is: with no ticket,
    the fixed opening line, the first choice of the client and the sign-off;
    with tickets, the first choice of the client and nothing else. *)
Theorem generate_response_reply (nt : NewTicket) (l : list Match)
    (log log' : list ChatRequest) (reply : string) :
  generate_response nt l log = (Ok reply, log') ->
  exists request choices,
    log' = log ++ [request]
    /\ chat_completion request = Ok choices
    /\ match l with
       | [] =>
           exists suggestion,
             head choices = Some suggestion
             /\ reply = no_evidence_reply_head +:+ suggestion
                        +:+ no_evidence_reply_tail
       | _ :: _ => head choices = Some reply
       end.
Proof.
  destruct l as [|m l];
    unfold generate_response, r_bind, call_client, first_content, r_ret,
      r_raise;
    intros H.
  - destruct (chat_completion (no_evidence_request nt)) as [[|c cs]|e] eqn:Hc;
      try discriminate.
    injection H as <- <-. exists (no_evidence_request nt), (c :: cs).
    repeat split; [exact Hc|]. exists c. split; reflexivity.
  - match type of H with
    | context [chat_completion ?r] =>
        destruct (chat_completion r) as [[|c cs]|e] eqn:Hc; try discriminate;
        injection H as <- <-; exists r, (c :: cs)
    end.
    repeat split. exact Hc.
Qed.

(** X15. When some ticket is resolved, the unresolved tickets play no part:
    two lists with the same resolved tickets, in the same order, give the
    same request and the same outcome. *)
Theorem generate_response_resolved_only (nt : NewTicket) (l1 l2 : list Match)
    (log : list ChatRequest) :
  filter (fun m => resolved m = true) l1
  = filter (fun m => resolved m = true) l2 ->
  filter (fun m => resolved m = true) l1 <> [] ->
  generate_response nt l1 log = generate_response nt l2 log.
Proof.
  intros Heq Hne.
  assert (H1 : l1 <> []) by (intros ->; apply Hne; reflexivity).
  assert (H2 : l2 <> [])
    by (intros ->; apply Hne; rewrite Heq; reflexivity).
  rewrite (generate_response_evidence nt l1 log H1).
  rewrite (generate_response_evidence nt l2 log H2).
  rewrite <- Heq.
  destruct (filter (fun m => resolved m = true) l1); [congruence|].
  reflexivity.
Qed.

(** X16. An error of the client is the error of [generate_response], and
    an answer without any choice makes it raise [IndexError]; the request has
    been sent in both cases. *)
Theorem generate_response_client_errors (nt : NewTicket) (l : list Match)
    (log : list ChatRequest) :
  exists request,
    snd (generate_response nt l log) = log ++ [request]
    /\ (forall e, chat_completion request = Raise e ->
                  fst (generate_response nt l log) = Raise e)
    /\ (chat_completion request = Ok [] ->
        exists msg, fst (generate_response nt l log) = Raise (IndexError msg)).
Proof.
  assert (Hrun : forall request,
             snd (r_bind (call_client request)
                         (fun response => first_content response) log)
             = log ++ [request]
             /\ (forall e, chat_completion request = Raise e ->
                   fst (r_bind (call_client request)
                               (fun response => first_content response) log)
                   = Raise e)
             /\ (chat_completion request = Ok [] ->
                 exists msg,
                   fst (r_bind (call_client request)
                               (fun response => first_content response) log)
                   = Raise (IndexError msg))).
  { intros request.
    unfold r_bind, call_client, first_content, r_raise, r_ret.
    destruct (chat_completion request) as [[|c cs]|e]; simpl.
    - split; [reflexivity|]. split; [discriminate | eauto].
    - split; [reflexivity|]. split; discriminate.
    - split; [reflexivity|]. split; [|discriminate].
      intros e' [= <-]. reflexivity. }
  destruct l as [|m l].
  - exists (no_evidence_request nt).
    unfold generate_response, r_bind, call_client, first_content, r_raise.
    destruct (chat_completion (no_evidence_request nt)) as [[|c cs]|e]; simpl.
    + split; [reflexivity|]. split; [discriminate | eauto].
    + split; [reflexivity|]. split; discriminate.
    + split; [reflexivity|]. split; [|discriminate].
      intros e' [= <-]. reflexivity.
  - rewrite (generate_response_evidence nt (m :: l) log) by discriminate.
    eexists. apply Hrun.
Qed.

End ResolutionFacts.

(** ** From the ranked list to the client *)

Section Pipeline.
Import Resolution.
Context `{B : Backend} `{P : Provider}.
Local Open Scope list_scope.

Lemma before_unresolved (x y : Match) :
  before x y -> resolved x = false -> resolved y = false.
Proof.
  unfold before, key_le, sort_key. simpl. intros H Hx. rewrite Hx in H.
  destruct (resolved y); [|reflexivity]. simpl in H.
  destruct H as [H|[H _]]; lia.
Qed.

Lemma filter_resolved_none (l : list Match) :
  Forall (fun m => resolved m = false) l ->
  filter (fun m => resolved m = true) l = [].
Proof.
  induction 1 as [|m l Hm _ IH]; [reflexivity|].
  rewrite filter_cons, decide_False by (rewrite Hm; discriminate). exact IH.
Qed.

Lemma sorted_resolved_prefix (l : list Match) :
  StronglySorted before l ->
  exists n,
    take n l = filter (fun m => resolved m = true) l
    /\ Forall (fun m => resolved m = true) (take n l)
    /\ Forall (fun m => resolved m = false) (drop n l).
Proof.
  induction 1 as [|y l Hl IH Hy].
  - exists 0%nat. repeat split; constructor.
  - destruct (resolved y) eqn:Hry.
    + destruct IH as (n & Htake & Hres & Hunres).
      exists (S n). simpl. rewrite filter_cons, decide_True by exact Hry.
      rewrite Htake. split; [reflexivity|]. split; [|exact Hunres].
      constructor; [exact Hry|]. rewrite <- Htake. exact Hres.
    + assert (Hall : Forall (fun m => resolved m = false) (y :: l)).
      { constructor; [exact Hry|]. eapply Forall_impl; [exact Hy|].
        intros z Hz. exact (before_unresolved y z Hz Hry). }
      exists 0%nat. simpl. split; [|split; [constructor | exact Hall]].
      symmetry. apply filter_resolved_none, Hall.
Qed.

(** X17. The ranked list handed to [generate_response]: the resolved
    matches are a prefix of the list returned by [find_similar_tickets];
    when this prefix is not empty the request carries the prompt for
    resolved tickets built from exactly these matches, most similar first,
    and otherwise the prompt for unresolved tickets built from the whole
    list. *)
Theorem ranked_list_to_client (i c d : option string) (k : Z) (th : Q)
    (w w' : World) (results : list Match) (nt : NewTicket)
    (log : list ChatRequest) :
  find_similar_tickets i c d k th w = (Ok results, w') ->
  results <> [] ->
  exists n,
    Forall (fun m => resolved m = true) (take n results)
    /\ Forall (fun m => resolved m = false) (drop n results)
    /\ snd (generate_response nt results log)
       = log ++ [evidence_request nt
                   (match n with
                    | O =>
                        _craft_prompt_for_unresolved_tickets nt
                          (map serializable results)
                    | S _ =>
                        _craft_prompt_for_resolved_tickets nt
                          (map serializable (take n results))
                    end)].
Proof.
  intros H Hne.
  apply find_similar_tickets_ok in H
    as (ix & df & v & vs & raw & r & _ & _ & _ & _ & _ & ->).
  destruct (sorted_resolved_prefix _ (sort_by_key_sorted r))
    as (n & Htake & Hres & Hunres).
  exists n. split; [exact Hres|]. split; [exact Hunres|].
  rewrite (generate_response_evidence nt _ log Hne), <- Htake.
  assert (Hprompt :
    match take n (sort_by_key r) with
    | _ :: _ =>
        _craft_prompt_for_resolved_tickets nt
          (map serializable (take n (sort_by_key r)))
    | [] =>
        _craft_prompt_for_unresolved_tickets nt
          (map serializable (sort_by_key r))
    end
    = match n with
      | O =>
          _craft_prompt_for_unresolved_tickets nt
            (map serializable (sort_by_key r))
      | S _ =>
          _craft_prompt_for_resolved_tickets nt
            (map serializable (take n (sort_by_key r)))
      end).
  { destruct n as [|n]; [reflexivity|].
    destruct (sort_by_key r) as [|m l]; [congruence | reflexivity]. }
  rewrite Hprompt.
  unfold r_bind, call_client.
  destruct (chat_completion _) as [choices|e]; [|reflexivity].
  unfold first_content. destruct choices; reflexivity.
Qed.

End Pipeline.

(** ** The further properties on concrete instances *)

Module ConcreteMore.
Import Toy Examples MoreExamples Resolution ToyProvider.
Local Open Scope list_scope.

(** The constructor on [files_mismatch] returns [loaded_mismatch]. *)
Example new_on_files_mismatch :
  new csv_path (Some "ticket_index.bin") files_mismatch
  = (Ok (self loaded_mismatch), fs loaded_mismatch).
Proof.
  apply (new_load files_mismatch csv_path "ticket_index.bin"
                  built_index built_index
                  [mkRow (Id "T9") (Some "Mouse broken") None None false
                         None]);
    first [discriminate | reflexivity | (vm_compute; reflexivity)].
Qed.

Example new_on_corpus_tie :
  new csv_path None {[ csv_path := CsvFile corpus_tie ]}
  = (Ok (self ready_tie), fs ready_tie).
Proof.
  apply (new_build (B := backend)
           {[ csv_path := CsvFile corpus_tie ]} csv_path corpus_tie
           [27%Z; 29%Z] (mkToy 384 2 [] 10)
           (mkToy 384 2 [(0%nat, 27%Z); (1%nat, 29%Z)] 10));
    first [discriminate | reflexivity | (vm_compute; reflexivity)].
Qed.

(** X1 with one blank before the issue and two behind the description. *)
Lemma create_ticket_string_outer_whitespace_witness :
  all_space " " = true
  /\ all_space "  " = true
  /\ create_ticket_string (Some (" " +:+ "Printer")) (Some "Hardware")
       (Some ("offline" +:+ "  "))
     = create_ticket_string (Some "Printer") (Some "Hardware")
         (Some "offline").
Proof.
  split; [reflexivity|]. split; [reflexivity|].
  apply (create_ticket_string_outer_whitespace " " "Printer" "offline" "  "
           (Some "Hardware")); reflexivity.
Defined.


(** X7 on the build of the four-row corpus. *)
Lemma new_returns_bare_or_ready_witness :
  new csv_path None files0 = (Ok (self ready), fs ready)
  /\ ((csv_path = "" /\ self ready = bare /\ fs ready = files0)
      \/ exists ix df,
          files0 !! csv_path = Some (CsvFile df)
          /\ index (self ready) = Some (Some ix)
          /\ resolved_tickets_data (self ready) = Some (Some df)
          /\ ticket_ids (self ready) = Some (map TicketID df)
          /\ dim (self ready) = Some 384%nat
          /\ index_path (self ready) = Some None
          /\ resolved_tickets_data_path (self ready) = Some csv_path).
Proof.
  split; [exact Concrete.new_on_corpus|].
  apply (new_returns_bare_or_ready files0 (fs ready) csv_path None
           (self ready) Concrete.new_on_corpus).
Defined.

(** X9 on the instance loaded from the mismatched files: the second raw
    result names slot 1, and the list of identifiers has one entry. *)
Lemma find_similar_tickets_slot_out_of_range_witness :
  ticket_ids (self loaded_mismatch) = Some [Id "T9"]
  /\ hnsw_knn_query built_index 28%Z 4 = Ok raw_results
  /\ (1%nat, 4 # 14)%Q ∈ raw_results
  /\ (0.5 <= 1 - (4 # 14))%Q
  /\ (length [Id "T9"] <= 1)%nat
  /\ exists msg,
      find_similar_tickets (Some "Printer WiFi issue!") (Some "Hardware")
        None 4 0.5 loaded_mismatch
      = (Raise (IndexError msg), loaded_mismatch).
Proof.
  assert (H1 : ticket_ids (self loaded_mismatch) = Some [Id "T9"])
    by reflexivity.
  assert (H2 : hnsw_knn_query built_index 28%Z 4 = Ok raw_results)
    by (vm_compute; reflexivity).
  assert (H3 : (1%nat, 4 # 14)%Q ∈ raw_results) by (right; left).
  assert (H4 : (0.5 <= 1 - (4 # 14))%Q) by (unfold Qle; simpl; lia).
  assert (H5 : (length [Id "T9"] <= 1)%nat) by (simpl; lia).
  repeat (split; [assumption|]).
  apply (find_similar_tickets_slot_out_of_range
           (Some "Printer WiFi issue!") (Some "Hardware") None 4 0.5
           loaded_mismatch built_index
           [mkRow (Id "T9") (Some "Mouse broken") None None false None]
           [Id "T9"] 28%Z [] raw_results 1%nat (4 # 14)%Q);
    first [assumption | reflexivity].
Defined.

(** X10 on the four-row corpus, with more neighbours asked for than the
    index holds. *)
Lemma find_similar_tickets_collaborator_errors_witness :
  index (self ready) = Some (Some built_index)
  /\ resolved_tickets_data (self ready) = Some (Some corpus)
  /\ find_similar_tickets (Some "Printer WiFi issue!") (Some "Hardware") None
       5 0.5 ready
     = (Raise (RuntimeError "Cannot return the results"), ready).
Proof.
  assert (H1 : index (self ready) = Some (Some built_index)) by reflexivity.
  assert (H2 : resolved_tickets_data (self ready) = Some (Some corpus))
    by reflexivity.
  split; [exact H1|]. split; [exact H2|].
  destruct (find_similar_tickets_collaborator_errors
              (Some "Printer WiFi issue!") (Some "Hardware") None 5 0.5
              ready built_index corpus H1 H2) as (_ & _ & Hknn).
  apply (Hknn 28%Z []); first [reflexivity | (vm_compute; reflexivity)].
Defined.

(** X11 on two tickets at the same distance: [T5], returned first by the
    index, stays first. *)
Lemma find_similar_tickets_keeps_tie_order_witness :
  find_similar_tickets (Some "Printer WiFi issue!") (Some "Hardware") None
    2 0.5 ready_tie = (Ok [match_T5; match_T6], ready_tie)
  /\ exists ms,
      Forall2 (match_of (self ready_tie))
              (above_threshold 0.5 [(0%nat, 1 # 11); (1%nat, 1 # 11)]%Q) ms
      /\ forall key,
          filter (fun m => same_key (sort_key m) key = true)
                 [match_T5; match_T6]
          = filter (fun m => same_key (sort_key m) key = true) ms.
Proof.
  assert (H : find_similar_tickets (Some "Printer WiFi issue!")
                (Some "Hardware") None 2 0.5 ready_tie
              = (Ok [match_T5; match_T6], ready_tie))
    by (apply find_similar_tickets_eq; vm_compute; reflexivity).
  split; [exact H|].
  apply (find_similar_tickets_keeps_tie_order
           (Some "Printer WiFi issue!") (Some "Hardware") None 2 0.5
           ready_tie ready_tie tie_index corpus_tie 28%Z []
           [(0%nat, 1 # 11); (1%nat, 1 # 11)]%Q [match_T5; match_T6]);
    first [exact H | reflexivity | (vm_compute; reflexivity)].
Defined.

(** X12 on the four-row corpus: from the threshold 0.5 to 0.8 only [T1] is
    left. *)
Lemma find_similar_tickets_raise_threshold_witness :
  (0.5 <= 0.8)%Q
  /\ find_similar_tickets (Some "Printer WiFi issue!") (Some "Hardware") None
       4 0.5 ready = (Ok ranked, ready)
  /\ find_similar_tickets (Some "Printer WiFi issue!") (Some "Hardware") None
       4 0.8 ready
     = (Ok (filter (fun m => Qle_bool 0.8 (similarity_score m) = true)
                   ranked), ready).
Proof.
  assert (H1 : (0.5 <= 0.8)%Q) by (unfold Qle; simpl; lia).
  assert (H2 : find_similar_tickets (Some "Printer WiFi issue!")
                 (Some "Hardware") None 4 0.5 ready = (Ok ranked, ready))
    by (apply find_similar_tickets_eq; vm_compute; reflexivity).
  split; [exact H1|]. split; [exact H2|].
  apply (find_similar_tickets_raise_threshold _ _ _ _ _ _ _ _ _ H1 H2).
Defined.

(** X14 on the small client, without tickets. *)
Lemma generate_response_reply_witness :
  generate_response "Printer offline" [] []
  = (Ok (no_evidence_reply_head +:+ "Restart the printer."
         +:+ no_evidence_reply_tail),
     [no_evidence_request "Printer offline"])
  /\ exists request choices,
      [no_evidence_request "Printer offline"] = [] ++ [request]
      /\ chat_completion request = Ok choices
      /\ exists suggestion,
          head choices = Some suggestion
          /\ no_evidence_reply_head +:+ "Restart the printer."
             +:+ no_evidence_reply_tail
             = no_evidence_reply_head +:+ suggestion
               +:+ no_evidence_reply_tail.
Proof.
  assert (H : generate_response "Printer offline" [] []
              = (Ok (no_evidence_reply_head +:+ "Restart the printer."
                     +:+ no_evidence_reply_tail),
                 [no_evidence_request "Printer offline"])) by reflexivity.
  split; [exact H|].
  apply (generate_response_reply (P := provider) "Printer offline" [] [] _ _ H).
Defined.

(** X15 on the ranked list of the four-row corpus and its resolved match
    alone. *)
Lemma generate_response_resolved_only_witness :
  filter (fun m => resolved m = true) ranked
  = filter (fun m => resolved m = true) [match_T2]
  /\ filter (fun m => resolved m = true) ranked <> []
  /\ generate_response "Printer offline" ranked []
     = generate_response "Printer offline" [match_T2] [].
Proof.
  assert (H1 : filter (fun m => resolved m = true) ranked
               = filter (fun m => resolved m = true) [match_T2])
    by reflexivity.
  assert (H2 : filter (fun m => resolved m = true) ranked <> [])
    by discriminate.
  split; [exact H1|]. split; [exact H2|].
  apply (generate_response_resolved_only (P := provider)
           "Printer offline" ranked [match_T2]
           [] H1 H2).
Defined.

(** X17 on the four-row corpus: one resolved match heads the list. *)
Lemma ranked_list_to_client_witness :
  find_similar_tickets (Some "Printer WiFi issue!") (Some "Hardware") None
    4 0.5 ready = (Ok ranked, ready)
  /\ ranked <> []
  /\ exists n,
      Forall (fun m => resolved m = true) (take n ranked)
      /\ Forall (fun m => resolved m = false) (drop n ranked)
      /\ snd (generate_response "Printer offline" ranked [])
         = [] ++ [evidence_request "Printer offline"
                    (match n with
                     | O =>
                         _craft_prompt_for_unresolved_tickets
                           "Printer offline" (map serializable ranked)
                     | S _ =>
                         _craft_prompt_for_resolved_tickets
                           "Printer offline"
                           (map serializable (take n ranked))
                     end)].
Proof.
  assert (H1 : find_similar_tickets (Some "Printer WiFi issue!")
                 (Some "Hardware") None 4 0.5 ready = (Ok ranked, ready))
    by (apply find_similar_tickets_eq; vm_compute; reflexivity).
  assert (H2 : ranked <> []) by discriminate.
  split; [exact H1|]. split; [exact H2|].
  apply (ranked_list_to_client (B := backend) (P := provider)
           _ _ _ _ _ _ _ _ "Printer offline" [] H1 H2).
Defined.

(** C7, as stated, fails on the instance built from the corpus with an
    empty identifier cell. Slot 0 is among the raw results and its
    identifier matches no row; with the threshold 0.8 its similarity 10/13
    is too low, the slot is never looked up, and the query returns the other
    match as if nothing were wrong. With the threshold 0.5 the slot is
    looked up and the query stops with the [IndexError] of the row lookup,
    the exception that any index out of bounds raises. *)
Lemma absent_record_not_signalled :
  ticket_ids (self ready_nan) = Some [NaN; Id "T2"]
  /\ (forall row, row ∈ corpus_nan -> ticket_id_eqb (TicketID row) NaN = false)
  /\ hnsw_knn_query (mkToy 384 2 [(0%nat, 27%Z); (1%nat, 24%Z)] 50) 24%Z 2
     = Ok [(1%nat, 0 # 10); (0%nat, 3 # 13)]%Q
  /\ find_similar_tickets (Some "Printer offline") (Some "Hardware") None
       2 0.8 ready_nan
     = (Ok [match_T2_exact], ready_nan)
  /\ find_similar_tickets (Some "Printer WiFi issue!") (Some "Hardware") None
       2 0.5 ready_nan
     = (Raise (IndexError "single positional indexer is out-of-bounds"),
        ready_nan).
Proof.
  split; [reflexivity|]. split.
  { intros row _. destruct (TicketID row); reflexivity. }
  split; [vm_compute; reflexivity|]. split.
  - apply find_similar_tickets_eq. vm_compute. reflexivity.
  - apply find_similar_tickets_eq. vm_compute. reflexivity.
Qed.

End ConcreteMore.
